(** * Chat orchestration graph and chart tool of the seamaritime backend

    A shallow embedding of
      - [app/AI/chat_graph/chat_graph.py]   (class [ChatGraph]),
      - [app/AI/chat_graph/nodes/tool_node.py],
      - [app/AI/chat_graph/tools/tools.py]  ([classify_columns],
        [consult_database], [generate_chart]),
    together with the properties the specification states about them.

    Python functions that can raise are functions into [PyResult]; the
    external collaborators (the language model, the read-only data source,
    pandas' numeric coercion, matplotlib) are Section variables, so every
    statement holds for whatever they answer. *)

From Stdlib Require Import ZArith QArith String Ascii DecimalString List Lia Bool.
From stdpp Require Import gmap strings list.

Import ListNotations.
Local Open Scope string_scope.
Local Open Scope Z_scope.

(** ** Python results and exceptions *)

Module Py.

(** The exception classes the modelled code names in an [except] clause,
    and one class for every other [Exception]. *)
Inductive ExnClass : Set :=
| GraphRecursionError
| IndexError
| KeyError
| AttributeError
| OtherException.

(** An exception: its class and [str(e)]. *)
Record Exn : Set := MkExn { exn_class : ExnClass; exn_str : string }.

Inductive PyResult (A : Type) : Type :=
| Return (a : A)
| Raise (e : Exn).

Arguments Return {A} a.
Arguments Raise {A} e.

Definition bind {A B : Type} (m : PyResult A) (k : A -> PyResult B)
  : PyResult B :=
  match m with
  | Return a => k a
  | Raise e => Raise e
  end.

(** [try: body / except Exception as e: handler e] *)
Definition try_except {A : Type} (body : PyResult A)
           (handler : Exn -> PyResult A) : PyResult A :=
  match body with
  | Return a => Return a
  | Raise e => handler e
  end.

Definition returns {A : Type} (m : PyResult A) : Prop :=
  exists a, m = Return a.

End Py.

Import Py.

Declare Scope py_scope.
Delimit Scope py_scope with py.
Notation "x <- m ;; k" := (Py.bind m (fun x => k))
  (at level 100, m at next level, right associativity) : py_scope.
Local Open Scope py_scope.

(** ** Python strings

    A [str] is modelled by the bytes of its UTF-8 encoding; searching for an
    ASCII needle gives the same answer on bytes as on code points. *)

Module PyStr.

(** [s.startswith(p)] *)
Fixpoint startswith (p s : string) : bool :=
  match p, s with
  | EmptyString, _ => true
  | String a p', String b s' => if Ascii.eqb a b then startswith p' s' else false
  | String _ _, EmptyString => false
  end.

(** [needle in s] *)
Fixpoint contains (needle s : string) : bool :=
  startswith needle s
  || match s with
     | EmptyString => false
     | String _ s' => contains needle s'
     end.

(** [bool(s)]: a string is truthy when it is not empty. *)
Definition truthy (s : string) : bool :=
  match s with
  | EmptyString => false
  | String _ _ => true
  end.

(** [str(n)] for a length (a natural number), in decimal. *)
Definition of_nat (n : nat) : string :=
  NilEmpty.string_of_uint (Nat.to_uint n).

(** [any(p(x) for x in l)] *)
Definition any {A : Type} (p : A -> bool) (l : list A) : bool :=
  existsb p l.

End PyStr.

(** ** Floating-point quotients, as far as the classifier needs them

    [converted.isna().sum() / len(converted)] is a NumPy division: it does not
    raise on an empty column but yields [nan], and every comparison with [nan]
    is false.  A finite value is kept as the exact rational; on columns of
    fewer than 2^50 cells the comparison with [0.8] the source makes in binary
    floating point has the same outcome. *)

Module Float.

Inductive t : Set :=
| NaN
| Fin (q : Q).

(** [n / d] for counts [n <= d] *)
Definition div_counts (n d : nat) : t :=
  match d with
  | O => NaN
  | S _ => Fin (Z.of_nat n # Pos.of_nat d)
  end.

(** [1 - x] *)
Definition one_minus (x : t) : t :=
  match x with
  | NaN => NaN
  | Fin q => Fin (1 - q)
  end.

(** [x >= c] *)
Definition ge (x : t) (c : Q) : bool :=
  match x with
  | NaN => false
  | Fin q => Qle_bool c q
  end.

End Float.

(** ** Tabular results and the column classifier ([tools.py], lines 15-33) *)

Section Classifier.

(** A cell of a query result, whatever the driver returns. *)
Variable Cell : Type.

(** A pandas [Series]: the cells of one column, [None] where a row has no
    such field. *)
Definition Series : Type := list (option Cell).

(** [pd.to_numeric(series, errors='coerce')]: the converted series, with
    [None] for [NaN], or an unexpected error. *)
Variable to_numeric : Series -> PyResult (list (option Q)).

(** [pd.DataFrame(result.fetchall(), columns=result.keys())] *)
Record DataFrame : Type := MkDataFrame {
  columns : list string;
  rows : list (list Cell)
}.

(** [df.empty]: no column or no row. *)
Definition df_empty (df : DataFrame) : bool :=
  match columns df, rows df with
  | [], _ | _, [] => true
  | _, _ => false
  end.

Definition column_at (df : DataFrame) (j : nat) : Series :=
  map (fun r => nth_error r j) (rows df).

(** Positions of the label [col] among the column labels, from [i]. *)
Fixpoint positions (col : string) (cols : list string) (i : nat) : list nat :=
  match cols with
  | [] => []
  | c :: cols' =>
      if String.eqb c col then i :: positions col cols' (S i)
      else positions col cols' (S i)
  end.

(** [df[col]]: a [Series] when the label is unique, a sub-frame of all the
    columns carrying it when it is repeated ([SELECT a, a ...]). *)
Definition getitem (df : DataFrame) (col : string) : Series + list Series :=
  match positions col (columns df) 0 with
  | [j] => inl (column_at df j)
  | js => inr (map (column_at df) js)
  end.

(** [pd.to_numeric(df[col], errors='coerce')]; pandas refuses a frame with
    a [TypeError]. *)
Definition pd_to_numeric (arg : Series + list Series)
  : PyResult (list (option Q)) :=
  match arg with
  | inl s => to_numeric s
  | inr _ =>
      Raise (MkExn OtherException
               "arg must be a list, tuple, 1-d array, or Series")
  end.

(** [converted.isna().sum()] *)
Definition isna_sum (converted : list (option Q)) : nat :=
  length (List.filter
            (fun c => match c with None => true | Some _ => false end)
            converted).

(** [1 - (converted.isna().sum() / len(converted))] *)
Definition not_na_ratio (converted : list (option Q)) : Float.t :=
  Float.one_minus (Float.div_counts (isna_sum converted) (length converted)).

(** The body of the [try] of one loop iteration: [true] when the column
    goes to [numeric_cols]. *)
Definition classify_try (df : DataFrame) (col : string) : PyResult bool :=
  converted <- pd_to_numeric (getitem df col) ;;
  Return (Float.ge (not_na_ratio converted) (8 # 10)).

Fixpoint classify_loop (df : DataFrame) (cols : list string)
         (numeric_cols cat_cols : list string)
  : PyResult (list string * list string) :=
  match cols with
  | [] => Return (numeric_cols, cat_cols)
  | col :: cols' =>
      acc <- try_except
               (is_num <- classify_try df col ;;
                Return (if is_num : bool
                        then ((numeric_cols ++ [col])%list, cat_cols)
                        else (numeric_cols, (cat_cols ++ [col])%list)))
               (fun _ => Return (numeric_cols, (cat_cols ++ [col])%list)) ;;
      classify_loop df cols' (fst acc) (snd acc)
  end.

(** [classify_columns(df)]: the pair [(numeric_cols, cat_cols)]. *)
Definition classify_columns (df : DataFrame)
  : PyResult (list string * list string) :=
  classify_loop df (columns df) [] [].

End Classifier.

Arguments MkDataFrame {Cell} columns rows.
Arguments columns {Cell} _.
Arguments rows {Cell} _.
Arguments df_empty {Cell} df.
Arguments column_at {Cell} df j.
Arguments getitem {Cell} df col.
Arguments pd_to_numeric {Cell} to_numeric arg.
Arguments classify_try {Cell} to_numeric df col.
Arguments classify_loop {Cell} to_numeric df cols numeric_cols cat_cols.
Arguments classify_columns {Cell} to_numeric df.

(** ** The chart tool ([tools.py], [generate_chart], lines 83-243) *)

(** What a branch of [generate_chart] hands to pandas and matplotlib: the
    kind of figure, the columns chosen by position and the caller's title
    (the default title used when it is empty, the rotation of tick labels and
    the pivoting are part of the drawing). *)
Inductive Plot : Type :=
| PiePlot (cat_col measure_col title : string)
| IndexPlot (chart_type title : string)
| CategoryPlot (chart_type cat_col : string) (numeric_cols : list string)
               (title : string)
| PivotPlot (chart_type cat1 cat2 measure_col title : string)
| ScatterPlot (x_col y_col : string) (c_col : option string) (title : string)
| HeatmapPlot (cat1 cat2 measure_col title : string).

(** A Python [dict] from [str] to [str]. *)
Abbreviation Dict := (gmap string string).

(** [{"error": msg}] *)
Definition error_outcome (msg : string) : Dict := {[ "error" := msg ]}.

(** [{"image": f"data:image/png;base64,{img_base64}", "message": ...}] *)
Definition image_outcome (img_base64 chart_type : string) : Dict :=
  <[ "image" := "data:image/png;base64," ++ img_base64 ]>
    {[ "message" := "Gráfico '" ++ chart_type ++ "' gerado com sucesso." ]}.

Definition is_error_outcome (d : Dict) : Prop :=
  is_Some (d !! "error") /\ d !! "image" = None.

Definition is_image_outcome (d : Dict) : Prop :=
  is_Some (d !! "image") /\ d !! "error" = None.

Definition pie_columns_error : string :=
  "Para gráfico de pizza, é necessário pelo menos 1 coluna categórica e 1 numérica.".

Definition scatter_columns_error : string :=
  "Scatter requer pelo menos 2 colunas numéricas (para X e Y).".

Definition heatmap_columns_error : string :=
  "Heatmap requer pelo menos 2 colunas categóricas e 1 coluna numérica.".

Definition no_data_error : string :=
  "Nenhum dado encontrado pela consulta.".

(** The message of the last [else] of the bar/line branch (lines 179-182). *)
Definition bar_line_columns_error (chart_type : string)
           (n_cat n_num : nat) : string :=
  "Não foi possível gerar gráfico '" ++ chart_type ++ "' com "
  ++ PyStr.of_nat n_cat ++ " colunas categóricas e "
  ++ PyStr.of_nat n_num ++ " colunas numéricas.".

(** The message of the final [else] (lines 221-224). *)
Definition unknown_chart_type_error (chart_type : string) : string :=
  "Tipo de gráfico '" ++ chart_type
  ++ "' não reconhecido. Use: bar, line, pie, scatter, heatmap.".

Section ChartTool.

Variable Cell : Type.
Variable to_numeric : Series Cell -> PyResult (list (option Q)).

(** [db.execute(text(query))], [fetchall] and the construction of the
    frame: the read-only data source. *)
Variable db_execute : string -> PyResult (DataFrame Cell).

(** [plt.figure(figsize=(10, 6))] *)
Variable plt_figure : PyResult unit.

(** The pandas and matplotlib calls of a branch followed by [savefig] and
    [base64.b64encode]: the encoded PNG, or whatever they raise. *)
Variable draw : DataFrame Cell -> Plot -> PyResult string.

(** [df[measure_col].isna().all()] *)
Definition isna_all (converted : list (option Q)) : bool :=
  forallb (fun c => match c with None => true | Some _ => false end)
          converted.

(** [l[i]] *)
Definition item (l : list string) (i : nat) : string := nth i l EmptyString.

(** The [if]/[elif] chain on [chart_type] (lines 114-224): [inl d] is an
    early [return d], [inr p] falls through to the rendering of [p]. *)
Definition chart_dispatch (df : DataFrame Cell)
           (numeric_cols cat_cols : list string)
           (chart_type title : string) : PyResult (Dict + Plot) :=
  let n_cat := length cat_cols in
  let n_num := length numeric_cols in
  if String.eqb chart_type "pie" then
    if (n_cat <? 1)%nat || (n_num <? 1)%nat then
      Return (inl (error_outcome pie_columns_error))
    else
      let cat_col := item cat_cols 0 in
      let measure_col := item numeric_cols 0 in
      converted <- pd_to_numeric to_numeric (getitem df measure_col) ;;
      if isna_all converted then
        Return (inl (error_outcome
                       ("A coluna '" ++ measure_col
                        ++ "' não pôde ser interpretada como numérica.")))
      else Return (inr (PiePlot cat_col measure_col title))
  else if String.eqb chart_type "bar" || String.eqb chart_type "line" then
    if (n_cat =? 0)%nat && (1 <=? n_num)%nat then
      Return (inr (IndexPlot chart_type title))
    else if (n_cat =? 1)%nat && (1 <=? n_num)%nat then
      Return (inr (CategoryPlot chart_type (item cat_cols 0)
                                numeric_cols title))
    else if (2 <=? n_cat)%nat && (1 <=? n_num)%nat then
      Return (inr (PivotPlot chart_type (item cat_cols 0) (item cat_cols 1)
                             (item numeric_cols 0) title))
    else
      Return (inl (error_outcome
                     (bar_line_columns_error chart_type n_cat n_num)))
  else if String.eqb chart_type "scatter" then
    if (n_num <? 2)%nat then
      Return (inl (error_outcome scatter_columns_error))
    else
      Return (inr (ScatterPlot (item numeric_cols 0) (item numeric_cols 1)
                               (if (3 <=? n_num)%nat
                                then Some (item numeric_cols 2) else None)
                               title))
  else if String.eqb chart_type "heatmap" then
    if (n_cat <? 2)%nat || (n_num <? 1)%nat then
      Return (inl (error_outcome heatmap_columns_error))
    else
      Return (inr (HeatmapPlot (item cat_cols 0) (item cat_cols 1)
                               (item numeric_cols 0) title))
  else
    Return (inl (error_outcome (unknown_chart_type_error chart_type))).

(** The body of the [try] (lines 102-236). *)
Definition generate_chart_try (query chart_type title : string)
  : PyResult Dict :=
  df <- db_execute query ;;
  if df_empty df then Return (error_outcome no_data_error)
  else
    cols <- classify_columns to_numeric df ;;
    let numeric_cols := fst cols in
    let cat_cols := snd cols in
    _ <- plt_figure ;;
    branch <- chart_dispatch df numeric_cols cat_cols chart_type title ;;
    match branch with
    | inl outcome => Return outcome
    | inr plot =>
        img_base64 <- draw df plot ;;
        Return (image_outcome img_base64 chart_type)
    end.

(** [generate_chart(query, chart_type, title)]; the session is taken from
    the factory the module sets when it is loaded, and closed in the
    [finally]. *)
Definition generate_chart (query chart_type title : string)
  : PyResult Dict :=
  try_except (generate_chart_try query chart_type title)
             (fun e => Return (error_outcome (exn_str e))).

End ChartTool.

Arguments chart_dispatch {Cell} to_numeric df numeric_cols cat_cols
  chart_type title.
Arguments generate_chart_try {Cell} to_numeric db_execute plt_figure draw
  query chart_type title.
Arguments generate_chart {Cell} to_numeric db_execute plt_figure draw
  query chart_type title.

(** ** The read-only query tool ([tools.py], [consult_database], lines 35-52) *)

(** What [db.execute] gives back: the rows, each already passed through
    [str], when [result.returns_rows], and [result.rowcount] otherwise. *)
Inductive QueryResult : Type :=
| ReturnsRows (rows : list string)
| RowCount (rowcount : Z).

Definition forbidden : list string :=
  ["DELETE"; "ALTER"; "CREATE"; "DROP"; "UPDATE"; "INSERT"; "TRUNCATE";
   "REPLACE"].

Definition read_only_rejection : string :=
  "❌ Apenas consultas de leitura são permitidas.".

(** [str(n)] for an integer. *)
Definition str_of_Z (n : Z) : string :=
  match n with
  | Z0 => "0"
  | Zpos p => PyStr.of_nat (Pos.to_nat p)
  | Zneg p => "-" ++ PyStr.of_nat (Pos.to_nat p)
  end.

Definition newline : string := String (ascii_of_nat 10) EmptyString.

(** A call of a tool on the data source: the statements it handed to
    [db.execute], in order, and what the call returned or raised. *)
Record DbCall (A : Type) : Type := MkDbCall {
  executed : list string;
  outcome : PyResult A
}.

Arguments MkDbCall {A} executed outcome.
Arguments executed {A} _.
Arguments outcome {A} _.

Section ConsultDatabase.

(** [str.upper], the case mapping of the Python runtime. *)
Variable upper : string -> string.

(** [db.execute(text(query))] on the read-only session. *)
Variable db_execute : string -> PyResult QueryResult.

Definition consult_database (query : string) : DbCall string :=
  if PyStr.any (fun cmd => PyStr.contains cmd (upper query)) forbidden then
    MkDbCall [] (Return read_only_rejection)
  else
    MkDbCall [query]
      (try_except
         (result <- db_execute query ;;
          match result with
          | ReturnsRows rows => Return (String.concat newline rows)
          | RowCount rowcount =>
              Return ("ℹ️ Linhas afetadas: " ++ str_of_Z rowcount)
          end)
         (fun e => Return ("⚠️ Erro ao executar consulta: " ++ exn_str e))).

End ConsultDatabase.

(** ASCII case mapping: [str.upper] on a query written in ASCII. *)
Definition ascii_upper (c : ascii) : ascii :=
  let n := nat_of_ascii c in
  if ((97 <=? n) && (n <=? 122))%nat then ascii_of_nat (n - 32) else c.

Fixpoint upper_ascii (s : string) : string :=
  match s with
  | EmptyString => EmptyString
  | String c s' => String (ascii_upper c) (upper_ascii s')
  end.

(** ** Messages and tool calls *)

(** A tool call requested by the model: [tool_call["name"]],
    [tool_call["args"]], [tool_call["id"]]. *)
Record ToolCall : Type := MkToolCall {
  tc_name : string;
  tc_args : Dict;
  tc_id : string
}.

(** The message classes of [langchain_core.messages] the graph handles; only
    an [AIMessage] has the attribute [tool_calls]. *)
Inductive Message : Type :=
| AIMessage (content : string) (tool_calls : list ToolCall)
| ToolMessage (content : string) (tool_call_id : string)
| HumanMessage (content : string)
| SystemMessage (content : string).

Definition content (m : Message) : string :=
  match m with
  | AIMessage c _ | ToolMessage c _ | HumanMessage c | SystemMessage c => c
  end.

(** [m.tool_calls] *)
Definition tool_calls (m : Message) : PyResult (list ToolCall) :=
  match m with
  | AIMessage _ calls => Return calls
  | _ => Raise (MkExn AttributeError "object has no attribute 'tool_calls'")
  end.

(** What a tool handler returns: a string or a dictionary. *)
Inductive PyValue : Type :=
| VStr (s : string)
| VDict (d : Dict).

(** A registered tool: [tool.invoke(args)]. *)
Definition Tool : Type := Dict -> PyResult PyValue.

(** The dictionary a node or a router works on. The schema handed to the
    engine ([state.py], lines 5-9) declares the channels [chat_id],
    [user_question], [file] and [messages]; [iterations] and [needs_chart]
    are keys the code writes into the dictionary without declaring them. A
    field is [None] when the key is absent, except [file] whose value may be
    [None]. *)
Record State : Type := MkState {
  chat_id : string;
  user_question : string;
  file : option string;
  iterations : option Z;
  messages : option (list Message);
  needs_chart : option bool
}.

Definition set_iterations (n : Z) (s : State) : State :=
  MkState (chat_id s) (user_question s) (file s) (Some n) (messages s)
          (needs_chart s).

Definition set_messages (l : list Message) (s : State) : State :=
  MkState (chat_id s) (user_question s) (file s) (iterations s) (Some l)
          (needs_chart s).

Definition set_needs_chart (b : bool) (s : State) : State :=
  MkState (chat_id s) (user_question s) (file s) (iterations s) (messages s)
          (Some b).

(** What the engine keeps of a dictionary: the channels of the schema. The
    keys [iterations] and [needs_chart] are not among them. *)
Definition channels (s : State) : State :=
  MkState (chat_id s) (user_question s) (file s) None (messages s) None.

(** [state.get("iterations", 0)] *)
Definition get_iterations (s : State) : Z := default 0 (iterations s).

(** [state.get("messages", [])] *)
Definition get_messages (s : State) : list Message := default [] (messages s).

(** [state.setdefault("messages", []).extend(new)] *)
Definition extend_messages (new : list Message) (s : State) : State :=
  set_messages (get_messages s ++ new)%list s.

(** ** The tool execution node ([nodes/tool_node.py]) *)

Section ToolNode.

(** [str(d)] for a dictionary, the runtime's [repr]. *)
Variable str_of_dict : Dict -> string.

(** [str(observacao)] *)
Definition py_str (v : PyValue) : string :=
  match v with
  | VStr s => s
  | VDict d => str_of_dict d
  end.

(** Lines 27-35: the content of the message built from a handler result. *)
Definition message_content (observacao : PyValue) : string :=
  match observacao with
  | VDict d =>
      match d !! "image" with
      | Some image => image
      | None =>
          match d !! "error" with
          | Some error => "Erro ao gerar gráfico: " ++ error
          | None => py_str observacao
          end
      end
  | _ => py_str observacao
  end.

(** The [for] loop over the tool calls (lines 19-36). *)
Fixpoint tool_loop (tools_by_name : gmap string Tool)
         (calls : list ToolCall) (resultados : list Message)
  : PyResult (list Message) :=
  match calls with
  | [] => Return resultados
  | tool_call :: calls' =>
      match tools_by_name !! tc_name tool_call with
      | None => tool_loop tools_by_name calls' resultados
      | Some tool =>
          observacao <- tool (tc_args tool_call) ;;
          tool_loop tools_by_name calls'
                    (resultados
                     ++ [ToolMessage (message_content observacao)
                                     (tc_id tool_call)])%list
      end
  end.

(** [state["messages"][-1].tool_calls] *)
Definition last_msg_tool_calls (state : State) : PyResult (list ToolCall) :=
  match messages state with
  | None => Raise (MkExn KeyError "'messages'")
  | Some msgs =>
      match last msgs with
      | None => Raise (MkExn IndexError "list index out of range")
      | Some m => tool_calls m
      end
  end.

(** [tool_node(state, tools_by_name)]: the list under ["messages"] of the
    dictionary it returns. *)
Definition tool_node (state : State) (tools_by_name : gmap string Tool)
  : PyResult (list Message) :=
  match last_msg_tool_calls state with
  | Raise e =>
      match exn_class e with
      | IndexError | KeyError | AttributeError => Return []
      | _ => Raise e
      end
  | Return calls => tool_loop tools_by_name calls []
  end.

End ToolNode.

(** ** The orchestration graph ([chat_graph.py], class [ChatGraph]) *)

(** The fields of a [ChatGraph] instance that the nodes and routers read or
    write. *)
Record ChatGraph : Type := MkChatGraph {
  erros_consecutivos : Z;
  tools_by_name : gmap string Tool;
  max_iterations : Z
}.

(** [ChatGraph(max_iterations)] with the registry of [get_tools()]. *)
Definition ChatGraph_init (tools : gmap string Tool) (max_iterations : Z)
  : ChatGraph :=
  MkChatGraph 0 tools max_iterations.

Definition default_max_iterations : Z := 5.

Definition set_erros_consecutivos (n : Z) (self : ChatGraph) : ChatGraph :=
  MkChatGraph n (tools_by_name self) (max_iterations self).

(** What a routing function returns: [END] or the string ["Action"]. *)
Inductive Route : Set :=
| END
| Action.

Definition image_prefix : string := "data:image/png;base64".

(** [last.content and last.content.startswith("data:image/png;base64")] *)
Definition is_image_message (m : Message) : bool :=
  PyStr.truthy (content m) && PyStr.startswith image_prefix (content m).

(** Lines 125-131; the second component is the instance after the call. *)
Definition count_errors_consecutivos (self : ChatGraph)
           (ultima_mensagem : Message) : Z * ChatGraph :=
  let content := content ultima_mensagem in
  let self' :=
    if PyStr.contains "ProgrammingError" content
       || PyStr.contains "Unknown column" content
    then set_erros_consecutivos (erros_consecutivos self + 1) self
    else set_erros_consecutivos 0 self in
  (erros_consecutivos self', self').

(** Lines 100-112. *)
Definition should_continue (self : ChatGraph) (state : State)
  : Route * ChatGraph :=
  if get_iterations state >=? max_iterations self then (END, self)
  else
    match last (get_messages state) with
    | None => (Action, self)
    | Some last =>
        let '(n, self') := count_errors_consecutivos self last in
        if n >? 3 then (END, self')
        else if is_image_message last then (END, self')
        else (Action, self')
    end.

(** Lines 95-98: the router wired after [llm_call]; it only logs. *)
Definition should_continue_wrapper (self : ChatGraph) (state : State)
  : Route * ChatGraph :=
  should_continue self state.

(** Lines 114-123. *)
Definition should_end_after_environment (state : State) : Route :=
  match last (get_messages state) with
  | None => Action
  | Some last => if is_image_message last then END else Action
  end.

(** The nodes added by [workflow]. *)
Inductive Node : Set :=
| decide_chart
| llm_call
| generic_llm
| environment.

Definition Node_eqb (a b : Node) : bool :=
  match a, b with
  | decide_chart, decide_chart
  | llm_call, llm_call
  | generic_llm, generic_llm
  | environment, environment => true
  | _, _ => false
  end.

(** The outcome of running the compiled graph: the nodes visited in order,
    the instance afterwards, and the final state or the exception. *)
Record Run : Type := MkRun {
  visited : list Node;
  instance : ChatGraph;
  result : PyResult State
}.

(** What [ChatGraph.invoke] returns: the final state of the graph, or the
    dictionary [{"messages": [...]}] built in the [except] clause. *)
Inductive InvokeResult : Type :=
| FinalState (s : State)
| Reply (reply_messages : list Dict).

Definition recursion_limit_reply : Dict :=
  <[ "sender" := "agent" ]>
    {[ "content" := "O fluxo excedeu o limite de iterações. "
                    ++ "Por favor, refine sua consulta ou tente novamente." ]}.

Section Graph.

Variable str_of_dict : Dict -> string.

(** [structured_model.invoke(prompt_messages).needs_chart] for the prompt
    [determine_chart_needed] builds from the user question. *)
Variable chart_decision : string -> PyResult bool.

(** [llm_call(state, llm_with_tools)] of [nodes/llm_call.py]: the answer of
    the model to the prompt built from the state and the stored history. *)
Variable llm_call_node : State -> PyResult Message.

(** [llm_with_tools.invoke(prompt)] for the prompt of the generic flow,
    built from the user question. *)
Variable generic_llm_invoke : string -> PyResult Message.

(** The number of node executions the engine allows before it raises its
    recursion-limit error (25 unless configured). *)
Variable recursion_limit : nat.

(** [nodes/analyze_need_chart.py] through the wrapper of line 64. *)
Definition determine_chart_needed_wrapper (state : State) : PyResult State :=
  needs <- chart_decision (user_question state) ;;
  Return (set_needs_chart needs state).

(** Lines 67-72. *)
Definition llm_call_wrapper (state : State) : PyResult State :=
  let state := set_iterations (get_iterations state + 1) state in
  resposta <- llm_call_node state ;;
  Return (extend_messages [resposta] state).

(** Lines 74-88. *)
Definition generic_llm_call_wrapper (state : State) : PyResult State :=
  response <- generic_llm_invoke (user_question state) ;;
  Return (extend_messages [response] state).

(** Lines 90-93. *)
Definition tool_node_wrapper (self : ChatGraph) (state : State)
  : PyResult State :=
  new <- tool_node str_of_dict state (tools_by_name self) ;;
  Return (extend_messages new state).

Definition run_node (self : ChatGraph) (node : Node) (state : State)
  : PyResult State :=
  match node with
  | decide_chart => determine_chart_needed_wrapper state
  | llm_call => llm_call_wrapper state
  | generic_llm => generic_llm_call_wrapper state
  | environment => tool_node_wrapper self state
  end.

(** The edges of [workflow] (lines 40-60): the node to run next, [None]
    for [END], and the instance after the router ran. *)
Definition next_node (self : ChatGraph) (node : Node) (state : State)
  : option Node * ChatGraph :=
  match node with
  | decide_chart =>
      (Some (if default false (needs_chart state)
             then llm_call else generic_llm), self)
  | llm_call =>
      let '(decision, self') := should_continue_wrapper self state in
      (match decision with Action => Some environment | END => None end,
       self')
  | environment =>
      (match should_end_after_environment state with
       | END => None
       | Action => Some llm_call
       end, self)
  | generic_llm => (None, self)
  end.

(** The compiled graph run from [node], for [StateGraph(State)]: the engine
    stores the channels of the schema and nothing else. The router after a
    node reads the dictionary the node returned; the next node receives the
    channels only, and so does the caller at the end. The reducer of
    [messages] keeps the list the node returned, which is the list it
    received followed by what it added. [fuel] is what is left of the
    recursion limit. *)
Fixpoint graph_run (fuel : nat) (self : ChatGraph) (node : Node)
         (state : State) (trace : list Node) : Run :=
  match fuel with
  | O => MkRun trace self
               (Raise (MkExn GraphRecursionError "Recursion limit reached"))
  | S fuel' =>
      match run_node self node state with
      | Raise e => MkRun (trace ++ [node]) self (Raise e)
      | Return state' =>
          let '(next, self') := next_node self node state' in
          match next with
          | None => MkRun (trace ++ [node]) self' (Return (channels state'))
          | Some node' =>
              graph_run fuel' self' node' (channels state') (trace ++ [node])
          end
      end
  end.

(** [graph.invoke(state)]: the channels of the input are stored and the
    entry edge leads to [decide_chart]. *)
Definition graph_invoke (self : ChatGraph) (state : State) : Run :=
  graph_run recursion_limit self decide_chart (channels state) [].

(** The state built at lines 134-140. *)
Definition initial_state (chat_id user_question : string)
           (file : option string) : State :=
  MkState chat_id user_question file (Some 0) (Some []) None.

(** Lines 133-154. *)
Definition invoke (self : ChatGraph) (chat_id user_question : string)
           (file : option string) : PyResult InvokeResult :=
  let state := initial_state chat_id user_question file in
  match result (graph_invoke self state) with
  | Return final => Return (FinalState final)
  | Raise e =>
      match exn_class e with
      | GraphRecursionError => Return (Reply [recursion_limit_reply])
      | _ => Raise e
      end
  end.

End Graph.

(** ** Concrete collaborators, for evaluating the definitions *)

Module Demo.

(** A driver whose cells are all text; a cell converts when it is a
    non-empty run of decimal digits. *)
Definition parse_cell (c : option string) : option Q :=
  match c with
  | Some (String a s) =>
      match NilEmpty.uint_of_string (String a s) with
      | Some u => Some (inject_Z (Z.of_nat (Nat.of_uint u)))
      | None => None
      end
  | _ => None
  end.

Definition to_numeric (s : Series string) : PyResult (list (option Q)) :=
  Return (map parse_cell s).

(** [SELECT a, b, c ...] with three numeric columns. *)
Definition three_measures : DataFrame string :=
  MkDataFrame ["a"; "b"; "c"] [["1"; "2"; "3"]; ["4"; "5"; "6"]].

(** [SELECT category ...] with one text column. *)
Definition one_category : DataFrame string :=
  MkDataFrame ["category"] [["A"]; ["B"]].

(** [SELECT x ...] with one numeric column. *)
Definition one_measure : DataFrame string :=
  MkDataFrame ["x"] [["1"]; ["2"]].

(** Column [v] has four valid cells out of five, column [w] three. *)
Definition four_of_five : DataFrame string :=
  MkDataFrame ["v"; "w"]
              [["1"; "a"]; ["2"; "b"]; ["3"; "4"]; ["4"; "5"]; ["x"; "6"]].

Definition db_three_measures (_ : string) : PyResult (DataFrame string) :=
  Return three_measures.

Definition db_one_category (_ : string) : PyResult (DataFrame string) :=
  Return one_category.

Definition db_one_measure (_ : string) : PyResult (DataFrame string) :=
  Return one_measure.

Definition db_no_rows (_ : string) : PyResult (DataFrame string) :=
  Return (MkDataFrame ["x"] []).

Definition plt_figure : PyResult unit := Return tt.

Definition draw (_ : DataFrame string) (_ : Plot) : PyResult string :=
  Return "iVBORw0KGgo=".

Definition db_rows (_ : string) : PyResult QueryResult :=
  Return (ReturnsRows ["(1, 'chat')"]).

Definition str_of_dict (_ : Dict) : string := "{}".

(** A registry with the one tool [show_tables]. *)
Definition show_tables : Tool := fun _ => Return (VStr "chats").

Definition tools : gmap string Tool := {[ "show_tables" := show_tables ]}.

Definition call_show_tables : ToolCall :=
  MkToolCall "show_tables" ∅ "call_1".

Definition call_unknown : ToolCall :=
  MkToolCall "drop_everything" ∅ "call_2".

(** A model that asks for the table list at every turn. *)
Definition llm_always_tool (_ : State) : PyResult Message :=
  Return (AIMessage EmptyString [call_show_tables]).

(** A model whose every answer quotes a database error. *)
Definition llm_always_error (_ : State) : PyResult Message :=
  Return (AIMessage "ProgrammingError: Unknown column 'x'" [call_show_tables]).

Definition wants_chart (_ : string) : PyResult bool := Return true.

Definition generic_answer (_ : string) : PyResult Message :=
  Return (AIMessage "ok" []).


Definition image_message : Message :=
  ToolMessage "data:image/png;base64,iVBORw0KGgo=" "call_1".

Definition state_with (n : Z) (msgs : list Message) : State :=
  MkState "7" "vendas por mes" None (Some n) (Some msgs) (Some true).

End Demo.

(** ** Vocabulary of the specification

    The notions the specification uses to state its properties, written from
    its words; the theorems relate them to the definitions above. *)

(** A message carries a database-error signature. *)
Definition has_error_signature (m : Message) : bool :=
  PyStr.contains "ProgrammingError" (content m)
  || PyStr.contains "Unknown column" (content m).

(** How many times a node occurs in a trace. *)
Definition visits (n : Node) (trace : list Node) : nat :=
  length (List.filter (Node_eqb n) trace).




(** The fraction of the cells of a converted column that hold a number;
    undefined for a column without cells. *)
Definition valid_fraction (converted : list (option Q)) : option Q :=
  match length converted with
  | O => None
  | S _ =>
      Some (Z.of_nat (length converted - isna_sum converted)
            # Pos.of_nat (length converted))
  end.

(** The rule of the specification for one column: numeric when the
    coercion succeeds and the fraction of cells holding a number is at least
    0.8, categorical otherwise, also when the coercion raises. *)
Definition numeric_column {Cell : Type}
           (to_numeric : Series Cell -> PyResult (list (option Q)))
           (df : DataFrame Cell) (col : string) : bool :=
  match pd_to_numeric to_numeric (getitem df col) with
  | Return converted =>
      match valid_fraction converted with
      | Some f => Qle_bool (8 # 10) f
      | None => false
      end
  | Raise _ => false
  end.

(** The column mixes below the minimum of a chart type: pie needs one
    categorical and one numeric column, scatter two numeric ones, heatmap two
    categorical and one numeric, bar and line one of the three supported
    mixes. *)
Definition below_minimum (chart_type : string) (n_cat n_num : nat) : bool :=
  if String.eqb chart_type "pie" then (n_cat <? 1)%nat || (n_num <? 1)%nat
  else if String.eqb chart_type "scatter" then (n_num <? 2)%nat
  else if String.eqb chart_type "heatmap" then
    (n_cat <? 2)%nat || (n_num <? 1)%nat
  else if String.eqb chart_type "bar" || String.eqb chart_type "line" then
    negb (((n_cat =? 0)%nat && (1 <=? n_num)%nat)
          || ((n_cat =? 1)%nat && (1 <=? n_num)%nat)
          || ((2 <=? n_cat)%nat && (1 <=? n_num)%nat))
  else false.

(** The message for a column mix below the minimum, per chart type. *)
Definition minimum_error (chart_type : string) (n_cat n_num : nat) : string :=
  if String.eqb chart_type "pie" then pie_columns_error
  else if String.eqb chart_type "scatter" then scatter_columns_error
  else if String.eqb chart_type "heatmap" then heatmap_columns_error
  else bar_line_columns_error chart_type n_cat n_num.

(** A message names the observed column counts: it shows both numbers. *)
Definition names_counts (msg : string) (n_cat n_num : nat) : bool :=
  PyStr.contains (PyStr.of_nat n_cat) msg
  && PyStr.contains (PyStr.of_nat n_num) msg.

Definition known_chart_type (chart_type : string) : bool :=
  PyStr.any (String.eqb chart_type) ["bar"; "line"; "pie"; "scatter"; "heatmap"].

(** One message per call whose tool is registered, in the order of the
    calls, tagged with the identifier of the call. *)
Definition expected_messages (str_of_dict : Dict -> string)
           (tools : gmap string Tool) (calls : list ToolCall)
  : list Message :=
  flat_map
    (fun call =>
       match tools !! tc_name call with
       | None => []
       | Some tool =>
           match tool (tc_args call) with
           | Return observacao =>
               [ToolMessage (message_content str_of_dict observacao)
                            (tc_id call)]
           | Raise _ => []
           end
       end)
    calls.

(** ** The schema tools ([tools.py], [show_tables] and [get_table_columns],
    lines 54-81) *)

(** What [db.execute] gives back to a tool that reads the first field of
    each row: the rows as tuples of text when [result.returns_rows]. *)
Inductive FieldsResult : Type :=
| FieldRows (rows : list (list string))
| NoRows.

(** [row[0]] *)
Definition first_field (row : list string) : PyResult string :=
  match row with
  | field :: _ => Return field
  | [] => Raise (MkExn IndexError "tuple index out of range")
  end.

(** [row[0] for row in rows] *)
Fixpoint first_fields (rows : list (list string)) : PyResult (list string) :=
  match rows with
  | [] => Return []
  | row :: rows' =>
      field <- first_field row ;;
      fields <- first_fields rows' ;;
      Return (field :: fields)
  end.

Definition no_tables_message : string := "ℹ️ Nenhuma tabela encontrada.".

Section SchemaTools.

(** [db.execute(text(...))] on the read-only session. *)
Variable db_execute : string -> PyResult FieldsResult.

(** [db.execute(text(...)).fetchall()], which raises when the statement
    returns no rows. *)
Variable db_fetchall : string -> PyResult (list (list string)).

Definition show_tables : DbCall string :=
  MkDbCall ["SHOW TABLES;"]
    (try_except
       (result <- db_execute "SHOW TABLES;" ;;
        match result with
        | FieldRows rows =>
            names <- first_fields rows ;;
            Return (String.concat newline names)
        | NoRows => Return no_tables_message
        end)
       (fun e => Return ("⚠️ Erro ao buscar tabelas: " ++ exn_str e))).

Definition get_table_columns (table_name : string) : DbCall string :=
  let statement := "SHOW COLUMNS FROM " ++ table_name ++ ";" in
  MkDbCall [statement]
    (try_except
       (rows <- db_fetchall statement ;;
        columns <- first_fields rows ;;
        Return (String.concat ", " columns))
       (fun e => Return ("⚠️ Erro ao buscar colunas da tabela '"
                         ++ table_name ++ "': " ++ exn_str e))).

End SchemaTools.

(** ** The generic heatmap tool ([tools.py], [generate_generic_heatmap],
    lines 245-314) *)

Definition heatmap_inference_error : string :=
  "Não foi possível inferir as colunas para o heatmap. Informe 'row', 'column' e 'value' manualmente.".

(** [{"image": ..., "message": f"Heatmap gerado com sucesso utilizando
    {aggfunc}."}] *)
Definition heatmap_outcome (img_base64 aggfunc : string) : Dict :=
  <[ "image" := "data:image/png;base64," ++ img_base64 ]>
    {[ "message" := "Heatmap gerado com sucesso utilizando " ++ aggfunc
                    ++ "." ]}.

(** [not param] for a parameter that is [None] or a string. *)
Definition not_given (param : option string) : bool :=
  match param with
  | None => true
  | Some s => negb (PyStr.truthy s)
  end.

(** The pivot of a heatmap: [index], [columns], [values]. *)
Record Pivot : Type := MkPivot {
  pivot_row : string;
  pivot_column : string;
  pivot_value : string
}.

Section GenericHeatmap.

Variable Cell : Type.
Variable to_numeric : Series Cell -> PyResult (list (option Q)).
Variable db_execute : string -> PyResult (DataFrame Cell).

(** [df.pivot_table(index=row, columns=column, values=value,
    aggfunc=aggfunc)] and the calls that follow it up to [b64encode]
    (lines 292-303). *)
Variable draw_heatmap :
  DataFrame Cell -> Pivot -> string -> string -> PyResult string.

(** Lines 280-290: [inl d] is the early [return d]. *)
Definition infer_pivot (df : DataFrame Cell) (row column value : option string)
  : PyResult (Dict + Pivot) :=
  if not_given row || not_given column || not_given value then
    cols <- classify_columns to_numeric df ;;
    let numeric_cols := fst cols in
    let cat_cols := snd cols in
    if (2 <=? length cat_cols)%nat && (1 <=? length numeric_cols)%nat then
      Return (inr (MkPivot
                     (if not_given row then item cat_cols 0
                      else default EmptyString row)
                     (if not_given column then item cat_cols 1
                      else default EmptyString column)
                     (if not_given value then item numeric_cols 0
                      else default EmptyString value)))
    else Return (inl (error_outcome heatmap_inference_error))
  else
    Return (inr (MkPivot (default EmptyString row)
                         (default EmptyString column)
                         (default EmptyString value))).

(** The body of the [try] (lines 273-309). *)
Definition generate_generic_heatmap_try
           (query : string) (row column value : option string)
           (aggfunc title : string) : PyResult Dict :=
  df <- db_execute query ;;
  if df_empty df then Return (error_outcome no_data_error)
  else
    inferred <- infer_pivot df row column value ;;
    match inferred with
    | inl outcome => Return outcome
    | inr pivot =>
        img_base64 <- draw_heatmap df pivot aggfunc title ;;
        Return (heatmap_outcome img_base64 aggfunc)
    end.

Definition generate_generic_heatmap
           (query : string) (row column value : option string)
           (aggfunc title : string) : PyResult Dict :=
  try_except (generate_generic_heatmap_try query row column value
                                           aggfunc title)
             (fun e => Return (error_outcome (exn_str e))).

End GenericHeatmap.

Arguments infer_pivot {Cell} to_numeric df row column value.
Arguments generate_generic_heatmap_try {Cell} to_numeric db_execute
  draw_heatmap query row column value aggfunc title.
Arguments generate_generic_heatmap {Cell} to_numeric db_execute
  draw_heatmap query row column value aggfunc title.

(** ** The stored history ([controllers/chat.py], [get_last_k_messages],
    lines 66-70, and [shared/memory/k_messages.py]) *)

(** A row of the message table, as far as the history reads it:
    [message.sender] and [message.content], which may be [None]. *)
Record StoredMessage : Type := MkStoredMessage {
  sender : string;
  stored_content : option string
}.

Definition base64_placeholder : string := "[Imagem em base64 omitida]".

Section History.

(** [str.lower], the case mapping of the Python runtime. *)
Variable lower : string -> string.

(** The query of line 69: the messages of the chat by descending identifier,
    at most [k] of them. *)
Variable query_last : Z -> Z -> PyResult (list StoredMessage).

(** A call on the message store: the [(chat_id, k)] queries it made and
    what it returned or raised. *)
Definition get_last_k_messages (chat_id k : Z)
  : list (Z * Z) * PyResult (list StoredMessage) :=
  if k <=? 0 then ([], Return [])
  else ([(chat_id, k)], query_last chat_id k).

(** Lines 14-24 of [k_messages.py]: one pass of the loop body. *)
Definition format_message (message : StoredMessage) : Message :=
  let content := default EmptyString (stored_content message) in
  let content :=
    if PyStr.contains "base64" content then base64_placeholder
    else content in
  if String.eqb (lower (sender message)) "agent" then AIMessage content []
  else HumanMessage content.

(** The loop over [reversed(messages)], appending to
    [formatted_messages]. *)
Fixpoint format_loop (reversed_messages : list StoredMessage)
         (formatted_messages : list Message) : list Message :=
  match reversed_messages with
  | [] => formatted_messages
  | message :: rest =>
      format_loop rest (formatted_messages ++ [format_message message])%list
  end.

Definition get_k_messages_formatted (chat_id k : Z)
  : PyResult (list Message) :=
  messages <- snd (get_last_k_messages chat_id k) ;;
  Return (format_loop (rev messages) []).

End History.

(** ** The answer kept by the message controller
    ([controllers/message.py], lines 38-49 and 102-111) *)

Definition no_answer : string := "Erro na resposta da IA".

(** Lines 44-47: the content of the latest message that has one, [current]
    when there is none. *)
Fixpoint latest_content (reversed_messages : list Message) (current : string)
  : string :=
  match reversed_messages with
  | [] => current
  | msg :: rest =>
      if PyStr.truthy (content msg) then content msg
      else latest_content rest current
  end.

(** [ia_response_content], from what [ChatGraph.invoke] returned. The
    messages of the dictionary built on exhaustion of the recursion limit
    are dictionaries, which have no attribute [content]. *)
Definition ia_response_content (ia_response_data : InvokeResult)
  : PyResult string :=
  match ia_response_data with
  | FinalState state =>
      match messages state with
      | None => Return no_answer
      | Some msgs =>
          match last msgs with
          | None => Raise (MkExn IndexError "list index out of range")
          | Some m =>
              if PyStr.truthy (content m) then Return (content m)
              else Return (latest_content (rev msgs) (content m))
          end
      end
  | Reply msgs =>
      match last msgs with
      | None => Raise (MkExn IndexError "list index out of range")
      | Some _ =>
          Raise (MkExn AttributeError
                       "'dict' object has no attribute 'content'")
      end
  end.

(** ** Uploaded files ([utils/tools.py], [Tools.extract_text_from_file],
    lines 8-29, and [controllers/message.py], lines 80-88) *)

(** What extracting the text of a file gives: the text, a [ValueError]
    (which the controller answers with status 400), or another exception. *)
Inductive Extraction : Type :=
| Extracted (text : string)
| ValueError (msg : string)
| OtherFailure (e : Exn).

Definition ALLOWED_EXTENSIONS : list string :=
  ["pdf"; "txt"; "xls"; "xlsx"; "ppt"; "pptx"; "doc"; "docx"].

(** [x in l] for strings. *)
Definition str_in (x : string) (l : list string) : bool :=
  existsb (String.eqb x) l.

Definition pdf_notice : string :=
  "PDF processing temporarily disabled. Please use Azure OCR for PDF processing.".

(** The text after the last dot of [s], when [s] has a dot. *)
Fixpoint after_last_dot (s : string) : option string :=
  match s with
  | EmptyString => None
  | String c s' =>
      match after_last_dot s' with
      | Some rest => Some rest
      | None => if Ascii.eqb c "."%char then Some s' else None
      end
  end.

(** [s.rsplit(".", 1)[-1]] *)
Definition rsplit_last (s : string) : string :=
  default s (after_last_dot s).

Section Uploads.

(** [str.lower], the case mapping of the Python runtime. *)
Variable lower : string -> string.

(** The readers of pandas, python-pptx and python-docx and the UTF-8
    decoding, on the bytes of the file. *)
Variable extract_text_from_excel : string -> Extraction.
Variable extract_text_from_txt : string -> Extraction.
Variable extract_text_from_powerpoint : string -> Extraction.
Variable extract_text_from_doc : string -> Extraction.

(** Lines 31-33: the PDF reader is disabled and does not read the file. *)
Definition extract_text_from_pdf (file_stream : string) : Extraction :=
  Extracted pdf_notice.

Definition extract_text_from_file (file_stream extension : string)
  : Extraction :=
  let extension := lower extension in
  if negb (str_in extension ALLOWED_EXTENSIONS) then
    ValueError ("Unsupported file extension: " ++ extension
                ++ ". Only text-based files are allowed.")
  else if String.eqb extension "pdf" then extract_text_from_pdf file_stream
  else if str_in extension ["xls"; "xlsx"] then
    extract_text_from_excel file_stream
  else if String.eqb extension "txt" then extract_text_from_txt file_stream
  else if str_in extension ["ppt"; "pptx"] then
    extract_text_from_powerpoint file_stream
  else if str_in extension ["doc"; "docx"] then
    extract_text_from_doc file_stream
  else ValueError ("Unsupported file extension: " ++ extension).

(** Lines 82-86 of the controller: the text handed to [ChatGraph.invoke]
    for an uploaded file. *)
Definition uploaded_file_text (filename file_bytes : string) : Extraction :=
  let extension := lower (rsplit_last filename) in
  extract_text_from_file file_bytes extension.

End Uploads.

(** ** Further vocabulary *)

(** An answer of the model in plain text: it requests no tool, is not an
    image and carries no database-error signature. *)
Definition plain_answer (m : Message) : Prop :=
  (exists text, m = AIMessage text [])
  /\ has_error_signature m = false
  /\ is_image_message m = false.

(** What the history hands to the prompt for a stored row: the placeholder
    when the stored content contains [base64], the stored content (the
    empty string for [None]) when it does not, and in no case an image. *)
Definition redacted (row : StoredMessage) (m : Message) : Prop :=
  let stored := default EmptyString (stored_content row) in
  (PyStr.contains "base64" stored = true -> content m = base64_placeholder)
  /\ (PyStr.contains "base64" stored = false -> content m = stored)
  /\ is_image_message m = false.

(** Further collaborators for evaluating the definitions. *)
Module Examples.

(** A model that answers in plain text at every turn. *)
Definition llm_plain (_ : State) : PyResult Message :=
  Return (AIMessage "Segue a analise." []).

Definition no_chart (_ : string) : PyResult bool := Return false.

(** A generic answer that asks for a tool. *)
Definition generic_with_tool (_ : string) : PyResult Message :=
  Return (AIMessage EmptyString [Demo.call_show_tables]).

(** A chart tool that succeeds, and one that fails. *)
Definition chart_ok : Tool :=
  fun _ => Return (VDict (image_outcome "iVBORw0KGgo=" "bar")).

Definition chart_fails : Tool :=
  fun _ => Return (VDict (error_outcome no_data_error)).

Definition tool_raises : Tool :=
  fun _ => Raise (MkExn OtherException "validation error").

Definition chart_tools : gmap string Tool :=
  <[ "generate_chart" := chart_ok ]> {[ "show_tables" := Demo.show_tables ]}.

Definition call_chart : ToolCall :=
  MkToolCall "generate_chart" ∅ "call_3".

(** ASCII case mapping: [str.lower] on a sender written in ASCII. *)
Definition ascii_lower (c : ascii) : ascii :=
  let n := nat_of_ascii c in
  if ((65 <=? n) && (n <=? 90))%nat then ascii_of_nat (n + 32) else c.

Fixpoint lower_ascii (s : string) : string :=
  match s with
  | EmptyString => EmptyString
  | String c s' => String (ascii_lower c) (lower_ascii s')
  end.

(** Three stored messages, newest first. *)
Definition stored : list StoredMessage :=
  [MkStoredMessage "agent" (Some "data:image/png;base64,iVBORw0KGgo=");
   MkStoredMessage "user" (Some "grafico de vendas");
   MkStoredMessage "Agent" None].

Definition query_stored (_ _ : Z) : PyResult (list StoredMessage) :=
  Return stored.

(** A frame whose label [a] is repeated. *)
Definition repeated_label : DataFrame string :=
  MkDataFrame ["a"; "a"; "b"] [["1"; "2"; "3"]; ["4"; "5"; "6"]].

(** A category and a measure. *)
Definition category_and_measure : DataFrame string :=
  MkDataFrame ["category"; "value"] [["A"; "10"]; ["B"; "20"]].

Definition db_category_and_measure (_ : string)
  : PyResult (DataFrame string) :=
  Return category_and_measure.

Definition draw_heatmap (_ : DataFrame string) (_ : Pivot) (_ _ : string)
  : PyResult string :=
  Return "iVBORw0KGgo=".

Definition db_fields (_ : string) : PyResult FieldsResult :=
  Return (FieldRows [["chats"]; ["messages"]]).

Definition db_fetchall_fails (_ : string)
  : PyResult (list (list string)) :=
  Raise (MkExn OtherException "Table 'x' doesn't exist").

Definition reader (label : string) (file_bytes : string) : Extraction :=
  Extracted (label ++ file_bytes).

(** A model that asks for a chart at every turn. *)
Definition llm_asks_chart (_ : State) : PyResult Message :=
  Return (AIMessage EmptyString [call_chart]).

End Examples.

(** * Properties *)

(** ** Strings *)

Lemma startswith_refl_app (p s : string) : PyStr.startswith p (p ++ s) = true.
Proof.
  induction p as [|a p IH]; simpl; [reflexivity|].
  now rewrite Ascii.eqb_refl.
Qed.

Lemma contains_here (n s : string) : PyStr.contains n (n ++ s) = true.
Proof.
  destruct (n ++ s) eqn:E; simpl; rewrite <- E, startswith_refl_app;
    reflexivity.
Qed.

Lemma contains_app_r (n s1 s2 : string) :
  PyStr.contains n s2 = true -> PyStr.contains n (s1 ++ s2) = true.
Proof.
  intros H. induction s1 as [|a s1 IH]; simpl; [exact H|].
  rewrite IH. apply orb_true_r.
Qed.

Lemma startswith_truthy (s : string) :
  PyStr.startswith image_prefix s = true -> PyStr.truthy s = true.
Proof. destruct s; [discriminate | reflexivity]. Qed.

(** ** Routing *)

Lemma count_errors_value (self : ChatGraph) (m : Message) :
  fst (count_errors_consecutivos self m)
  = erros_consecutivos (snd (count_errors_consecutivos self m)).
Proof. reflexivity. Qed.

Lemma count_errors_streak (self : ChatGraph) (m : Message) :
  erros_consecutivos (snd (count_errors_consecutivos self m))
  = if has_error_signature m then erros_consecutivos self + 1 else 0.
Proof.
  unfold count_errors_consecutivos, has_error_signature. simpl.
  destruct (_ || _); reflexivity.
Qed.

Lemma count_errors_max (self : ChatGraph) (m : Message) :
  max_iterations (snd (count_errors_consecutivos self m))
  = max_iterations self
  /\ tools_by_name (snd (count_errors_consecutivos self m))
     = tools_by_name self.
Proof.
  unfold count_errors_consecutivos. simpl. destruct (_ || _); split; reflexivity.
Qed.

Lemma should_continue_config (self : ChatGraph) (state : State) :
  max_iterations (snd (should_continue self state)) = max_iterations self
  /\ tools_by_name (snd (should_continue self state)) = tools_by_name self.
Proof.
  unfold should_continue.
  destruct (_ >=? _); [split; reflexivity|].
  destruct (last _) as [m|]; [|split; reflexivity].
  pose proof (count_errors_max self m) as H.
  destruct (count_errors_consecutivos self m) as [n self'] eqn:E. simpl in H.
  destruct (n >? 3); [exact H|]. destruct (is_image_message m); exact H.
Qed.

Lemma should_continue_at_ceiling (self : ChatGraph) (state : State) :
  max_iterations self <= get_iterations state ->
  should_continue self state = (END, self).
Proof.
  intros H. unfold should_continue.
  destruct (Z.geb_spec (get_iterations state) (max_iterations self)) as [_|Hlt];
    [reflexivity | lia].
Qed.

Lemma should_continue_below (self : ChatGraph) (state : State) (m : Message) :
  get_iterations state < max_iterations self ->
  last (get_messages state) = Some m ->
  should_continue self state
  = (if (erros_consecutivos (snd (count_errors_consecutivos self m)) >? 3)
        || is_image_message m
     then END else Action,
     snd (count_errors_consecutivos self m)).
Proof.
  intros Hlt Hlast. unfold should_continue.
  destruct (Z.geb_spec (get_iterations state) (max_iterations self)) as [Hge|_];
    [lia|].
  rewrite Hlast.
  destruct (count_errors_consecutivos self m) as [n self'] eqn:E.
  pose proof (count_errors_value self m) as Hv. rewrite E in Hv. simpl in Hv.
  simpl. rewrite <- Hv.
  destruct (n >? 3); [reflexivity|]. destruct (is_image_message m); reflexivity.
Qed.

(** C3. Whenever the content of the last message of the state starts with
    the prefix [data:image/png;base64], both routers of the chart path,
    [should_continue] (also through its wrapper) and
    [should_end_after_environment], return [END], whatever the iteration
    count, the ceiling and the error streak are. *)
Theorem image_message_routes_to_end
        (self : ChatGraph) (state : State) (m : Message) :
  last (get_messages state) = Some m ->
  PyStr.startswith "data:image/png;base64" (content m) = true ->
  fst (should_continue self state) = END
  /\ fst (should_continue_wrapper self state) = END
  /\ should_end_after_environment state = END.
Proof.
  intros Hlast Hpre.
  assert (Himg : is_image_message m = true).
  { unfold is_image_message. fold image_prefix in Hpre.
    now rewrite (startswith_truthy _ Hpre), Hpre. }
  assert (Hsc : fst (should_continue self state) = END).
  { destruct (Z_lt_le_dec (get_iterations state) (max_iterations self)) as [Hlt|Hge].
    - rewrite (should_continue_below _ _ _ Hlt Hlast), Himg, orb_true_r.
      reflexivity.
    - now rewrite should_continue_at_ceiling. }
  repeat split; try exact Hsc.
  unfold should_end_after_environment. now rewrite Hlast, Himg.
Qed.

Lemma image_message_routes_to_end_witness :
  get_iterations (Demo.state_with 1 [Demo.image_message])
  < max_iterations (ChatGraph_init Demo.tools 5)
  /\ fst (should_continue (ChatGraph_init Demo.tools 5)
                          (Demo.state_with 1 [Demo.image_message])) = END
  /\ should_end_after_environment (Demo.state_with 1 [Demo.image_message])
     = END.
Proof.
  split; [reflexivity|].
  pose proof (image_message_routes_to_end
                (ChatGraph_init Demo.tools 5)
                (Demo.state_with 1 [Demo.image_message])
                Demo.image_message eq_refl eq_refl) as [H1 [_ H3]].
  split; assumption.
Defined.





(** ** Runs of the graph *)

Lemma visits_snoc (n m : Node) (trace : list Node) :
  visits n (trace ++ [m])
  = (visits n trace + if Node_eqb n m then 1 else 0)%nat.
Proof.
  unfold visits. rewrite List.filter_app, length_app. simpl.
  destruct (Node_eqb n m); reflexivity.
Qed.

Section GraphRuns.

Variable str_of_dict : Dict -> string.
Variable chart_decision : string -> PyResult bool.
Variable llm_call_node : State -> PyResult Message.
Variable generic_llm_invoke : string -> PyResult Message.

Let run := graph_run str_of_dict chart_decision llm_call_node
                     generic_llm_invoke.

Lemma llm_call_wrapper_increments (state state' : State) :
  llm_call_wrapper llm_call_node state = Return state' ->
  get_iterations state' = get_iterations state + 1.
Proof.
  unfold llm_call_wrapper.
  destruct (llm_call_node _) as [resposta|e]; simpl; [|discriminate].
  intros H. injection H as <-. reflexivity.
Qed.

Lemma tool_node_wrapper_iterations (self : ChatGraph) (state state' : State) :
  tool_node_wrapper str_of_dict self state = Return state' ->
  get_iterations state' = get_iterations state.
Proof.
  unfold tool_node_wrapper.
  destruct (tool_node _ _ _) as [new|e]; simpl; [|discriminate].
  intros H. injection H as <-. reflexivity.
Qed.

Lemma tool_loop_returns (tools : gmap string Tool) (calls : list ToolCall) :
  (forall name tool args, tools !! name = Some tool -> returns (tool args)) ->
  forall resultados,
    returns (tool_loop str_of_dict tools calls resultados).
Proof.
  intros Htools. induction calls as [|call calls IH]; intros resultados;
    simpl.
  - now exists resultados.
  - destruct (tools !! tc_name call) as [tool|] eqn:Hlook; [|apply IH].
    destruct (Htools _ _ (tc_args call) Hlook) as [obs ->]. simpl. apply IH.
Qed.

Lemma tool_node_returns (state : State) (tools : gmap string Tool) :
  (forall name tool args, tools !! name = Some tool -> returns (tool args)) ->
  returns (tool_node str_of_dict state tools).
Proof.
  intros Htools. unfold tool_node.
  destruct (last_msg_tool_calls state) as [calls|e] eqn:Hcalls.
  - now apply tool_loop_returns.
  - unfold last_msg_tool_calls in Hcalls.
    destruct (messages state) as [msgs|].
    + destruct (last msgs) as [m|].
      * destruct m; simpl in Hcalls; try discriminate;
          injection Hcalls as <-; simpl; now eexists.
      * injection Hcalls as <-. simpl. now eexists.
    + injection Hcalls as <-. simpl. now eexists.
Qed.

(** An [llm_call] visit on what the engine stores finds no counter. *)
Lemma llm_call_wrapper_restarts (state state' : State) :
  llm_call_wrapper llm_call_node (channels state) = Return state' ->
  get_iterations state' = 1.
Proof.
  intros H. now rewrite (llm_call_wrapper_increments _ _ H).
Qed.

End GraphRuns.

(** C1. What the code does where the claim expects the counter to bound
    the loop. [llm_call_wrapper] adds one to the counter it finds and
    [should_continue] returns [END] when it reads a counter at or above the
    ceiling; but [iterations] is not a channel of the schema, so every visit
    to [llm_call] finds no counter and leaves it at 1. With the default
    ceiling of 5 and a model that asks for a tool at every turn, [llm_call]
    is visited 12 times, [should_continue] never reads more than 1, and the
    run ends in the recursion-limit error of the engine instead of [END]. *)
Theorem iterations_counter_restarts :
  (forall (llm_call_node : State -> PyResult Message) state state',
      llm_call_wrapper llm_call_node state = Return state' ->
      get_iterations state' = get_iterations state + 1)
  /\ (forall g state,
         get_iterations state >= max_iterations g ->
         fst (should_continue g state) = END)
  /\ (forall (llm_call_node : State -> PyResult Message) state state',
         llm_call_wrapper llm_call_node (channels state) = Return state' ->
         get_iterations state' = 1)
  /\ (let r := graph_invoke Demo.str_of_dict Demo.wants_chart
                            Demo.llm_always_tool Demo.generic_answer 25
                            (ChatGraph_init Demo.tools default_max_iterations)
                            (initial_state "7" "vendas por mes" None) in
      visits llm_call (visited r) = 12%nat
      /\ visits environment (visited r) = 12%nat
      /\ result r
         = Raise (MkExn GraphRecursionError "Recursion limit reached")).
Proof.
  split; [|split; [|split]].
  - apply llm_call_wrapper_increments.
  - intros g state H. rewrite should_continue_at_ceiling; [reflexivity | lia].
  - apply llm_call_wrapper_restarts.
  - cbv zeta. repeat split; vm_compute; reflexivity.
Qed.

Lemma iterations_counter_restarts_witness :
  get_iterations
    (extend_messages [AIMessage EmptyString [Demo.call_show_tables]]
                     (set_iterations 1 (channels (Demo.state_with 4 []))))
  = 1.
Proof.
  destruct iterations_counter_restarts as [_ [_ [Hrestart _]]].
  apply (Hrestart Demo.llm_always_tool (Demo.state_with 4 [])).
  reflexivity.
Defined.

(** C9. [ChatGraph.invoke] does not raise on exhaustion of the recursion
    limit: when the run of the graph raises the recursion-limit error of the
    engine, [invoke] returns a dictionary whose [messages] list holds exactly
    one message, sent by the agent, that asks the user to refine the query;
    no exception of that class leaves [invoke]. *)
Theorem invoke_recovers_from_recursion_limit
        (str_of_dict : Dict -> string)
        (chart_decision : string -> PyResult bool)
        (llm_call_node : State -> PyResult Message)
        (generic_llm_invoke : string -> PyResult Message)
        (recursion_limit : nat) (self : ChatGraph)
        (chat question : string) (attached : option string) :
  let graph_result :=
    result (graph_invoke str_of_dict chart_decision llm_call_node
                         generic_llm_invoke recursion_limit self
                         (initial_state chat question attached)) in
  let answer := invoke str_of_dict chart_decision llm_call_node
                       generic_llm_invoke recursion_limit self
                       chat question attached in
  (forall e, graph_result = Raise e ->
             exn_class e = GraphRecursionError ->
             answer = Return (Reply [recursion_limit_reply])
             /\ recursion_limit_reply !! "sender" = Some "agent"
             /\ exists text,
                 recursion_limit_reply !! "content" = Some text
                 /\ PyStr.contains "refine sua consulta" text = true)
  /\ (forall e, answer = Raise e -> exn_class e <> GraphRecursionError).
Proof.
  cbv zeta. unfold invoke. split.
  - intros e -> Hclass. rewrite Hclass.
    split; [reflexivity|]. split; [reflexivity|].
    eexists. split; reflexivity.
  - intros e.
    destruct (result _) as [final|e0]; [discriminate|].
    destruct (exn_class e0) eqn:Hclass; try discriminate;
      intros H; injection H as <-; rewrite Hclass; discriminate.
Qed.

Lemma invoke_recovers_from_recursion_limit_witness :
  invoke Demo.str_of_dict Demo.wants_chart Demo.llm_always_tool
         Demo.generic_answer 25 (ChatGraph_init Demo.tools 30)
         "7" "vendas por mes" None
  = Return (Reply [recursion_limit_reply]).
Proof.
  destruct (invoke_recovers_from_recursion_limit
              Demo.str_of_dict Demo.wants_chart Demo.llm_always_tool
              Demo.generic_answer 25 (ChatGraph_init Demo.tools 30)
              "7" "vendas por mes" None) as [Hrec _].
  cbv zeta in Hrec.
  destruct (Hrec (MkExn GraphRecursionError "Recursion limit reached"))
    as [Hanswer _].
  - vm_compute. reflexivity.
  - reflexivity.
  - exact Hanswer.
Defined.

(** ** The column classifier *)

Lemma isna_sum_le (converted : list (option Q)) :
  (isna_sum converted <= length converted)%nat.
Proof. unfold isna_sum. apply List.filter_length_le. Qed.

(** The test the source makes on [1 - na / len] is the test of the
    specification on the fraction of valid cells. *)
Lemma not_na_ratio_valid_fraction (converted : list (option Q)) :
  Float.ge (not_na_ratio converted) (8 # 10)
  = match valid_fraction converted with
    | Some f => Qle_bool (8 # 10) f
    | None => false
    end.
Proof.
  unfold not_na_ratio, valid_fraction, Float.div_counts.
  pose proof (isna_sum_le converted) as Hle.
  destruct (length converted) as [|n] eqn:Hlen; [reflexivity|].
  simpl Float.one_minus. simpl Float.ge.
  apply eq_true_iff_eq. rewrite !Qle_bool_iff.
  assert (Heq : (1 - (Z.of_nat (isna_sum converted) # Pos.of_nat (S n))
                 == Z.of_nat (S n - isna_sum converted) # Pos.of_nat (S n))%Q).
  { unfold Qeq, Qminus, Qplus, Qopp.
    cbn [Qnum Qden]. rewrite Nat2Z.inj_sub by exact Hle.
    set (p := Pos.of_nat (S n)).
    assert (Hp : Z.pos p = Z.of_nat (S n)).
    { unfold p. rewrite <- (Nat2Pos.id (S n)) at 2 by discriminate.
      now rewrite positive_nat_Z. }
    rewrite Pos2Z.inj_mul, Hp. ring. }
  now rewrite Heq.
Qed.

(** The fraction test in integers: at least four fifths of the cells. *)
Lemma valid_fraction_threshold (converted : list (option Q)) :
  (0 < length converted)%nat ->
  Float.ge (not_na_ratio converted) (8 # 10) = true
  <-> (4 * length converted
       <= 5 * (length converted - isna_sum converted))%nat.
Proof.
  intros Hpos. rewrite not_na_ratio_valid_fraction. unfold valid_fraction.
  destruct (length converted) as [|n] eqn:Hlen; [lia|].
  rewrite Qle_bool_iff. unfold Qle. cbn [Qnum Qden].
  set (p := Pos.of_nat (S n)).
  assert (Hp : Z.pos p = Z.of_nat (S n)).
  { unfold p. rewrite <- (Nat2Pos.id (S n)) at 2 by discriminate.
    now rewrite positive_nat_Z. }
  rewrite Hp. lia.
Qed.

Section ClassifierProperties.

Variable Cell : Type.
Variable to_numeric : Series Cell -> PyResult (list (option Q)).

Let numeric := numeric_column to_numeric.

Lemma classify_try_numeric_column (df : DataFrame Cell) (col : string) :
  try_except
    (is_num <- classify_try to_numeric df col ;; Return is_num)
    (fun _ => Return false)
  = Return (numeric df col).
Proof.
  unfold classify_try, numeric, numeric_column.
  destruct (pd_to_numeric to_numeric (getitem df col)) as [converted|e];
    simpl; [|reflexivity].
  now rewrite not_na_ratio_valid_fraction.
Qed.

Lemma classify_loop_partition (df : DataFrame Cell) (cols : list string) :
  forall numeric_cols cat_cols,
    classify_loop to_numeric df cols numeric_cols cat_cols
    = Return (numeric_cols ++ List.filter (numeric df) cols,
              cat_cols ++ List.filter (fun c => negb (numeric df c)) cols)%list.
Proof.
  induction cols as [|col cols IH]; intros numeric_cols cat_cols; simpl.
  - now rewrite !app_nil_r.
  - pose proof (classify_try_numeric_column df col) as Hcol.
    destruct (classify_try to_numeric df col) as [is_num|e]; simpl in *.
    + injection Hcol as ->. destruct (numeric df col); simpl;
        rewrite IH, <- !app_assoc; reflexivity.
    + injection Hcol as Hcol. rewrite <- Hcol. simpl.
      rewrite IH, <- !app_assoc. reflexivity.
Qed.

Lemma classify_columns_filter (df : DataFrame Cell) :
  classify_columns to_numeric df
  = Return (List.filter (numeric df) (columns df),
            List.filter (fun c => negb (numeric df c)) (columns df)).
Proof. unfold classify_columns. now rewrite classify_loop_partition. Qed.

Lemma filter_partition_permutation (P : string -> bool) (l : list string) :
  Permutation (List.filter P l ++ List.filter (fun c => negb (P c)) l) l.
Proof.
  induction l as [|a l IH]; simpl; [constructor|].
  destruct (P a); simpl.
  - now constructor.
  - rewrite <- Permutation_middle. now constructor.
Qed.

(** C5. [classify_columns] never fails; it returns two lists that split
    the column labels, in order, into those whose coercion succeeds with a
    fraction of valid cells of at least 0.8 (numeric) and the others
    (categorical), among them every column whose coercion raises. The two
    lists share no label and together are a rearrangement of the columns.
    A column with exactly 80% of valid cells is numeric, one with 79% is
    categorical. *)
Theorem classify_columns_partition (df : DataFrame Cell) :
  exists numeric_cols cat_cols,
    classify_columns to_numeric df = Return (numeric_cols, cat_cols)
    /\ numeric_cols = List.filter (numeric_column to_numeric df) (columns df)
    /\ cat_cols
       = List.filter (fun c => negb (numeric_column to_numeric df c))
                     (columns df)
    /\ Permutation (numeric_cols ++ cat_cols) (columns df)
    /\ (forall c, In c numeric_cols -> ~ In c cat_cols)
    /\ (forall c,
           In c numeric_cols
           <-> In c (columns df)
               /\ exists converted f,
                   pd_to_numeric to_numeric (getitem df c) = Return converted
                   /\ valid_fraction converted = Some f
                   /\ (8 # 10 <= f)%Q)
    /\ (forall c e,
           In c (columns df) ->
           pd_to_numeric to_numeric (getitem df c) = Raise e ->
           In c cat_cols)
    /\ (forall c converted,
           In c (columns df) ->
           pd_to_numeric to_numeric (getitem df c) = Return converted ->
           (0 < length converted)%nat ->
           ((5 * (length converted - isna_sum converted)
             = 4 * length converted)%nat -> In c numeric_cols)
           /\ ((100 * (length converted - isna_sum converted)
                = 79 * length converted)%nat -> In c cat_cols)).
Proof.
  exists (List.filter (numeric_column to_numeric df) (columns df)),
    (List.filter (fun c => negb (numeric_column to_numeric df c))
                 (columns df)).
  split; [apply classify_columns_filter|].
  split; [reflexivity|]. split; [reflexivity|].
  split; [apply filter_partition_permutation|].
  split.
  { intros c H1 H2. apply List.filter_In in H1 as [_ H1].
    apply List.filter_In in H2 as [_ H2]. rewrite H1 in H2. discriminate. }
  split.
  { intros c. rewrite List.filter_In. unfold numeric_column.
    split.
    - intros [Hin H]. split; [assumption|].
      destruct (pd_to_numeric to_numeric (getitem df c)) as [converted|e];
        [|discriminate].
      destruct (valid_fraction converted) as [f|] eqn:Hf; [|discriminate].
      exists converted, f. split; [reflexivity|]. split; [exact Hf|].
      apply Qle_bool_iff. exact H.
    - intros [Hin [converted [f [-> [-> Hf]]]]]. split; [assumption|].
      now apply Qle_bool_iff. }
  split.
  { intros c e Hin Hraise. apply List.filter_In. split; [assumption|].
    unfold numeric_column. now rewrite Hraise. }
  intros c converted Hin Hconv Hpos.
  pose proof (valid_fraction_threshold converted Hpos) as Hthr.
  rewrite not_na_ratio_valid_fraction in Hthr.
  split; intros Hfrac; apply List.filter_In; (split; [assumption|]);
    unfold numeric_column; rewrite Hconv.
  - apply Hthr. lia.
  - destruct (match valid_fraction converted with
              | Some f => Qle_bool (8 # 10) f
              | None => false
              end); [|reflexivity].
    assert (H : (4 * length converted
                 <= 5 * (length converted - isna_sum converted))%nat)
      by now apply Hthr.
    lia.
Qed.

End ClassifierProperties.

Lemma classify_columns_partition_witness :
  classify_columns Demo.to_numeric Demo.four_of_five = Return (["v"], ["w"]).
Proof.
  destruct (classify_columns_partition string Demo.to_numeric
                                       Demo.four_of_five)
    as [numeric_cols [cat_cols [Hret [Hnum [Hcat _]]]]].
  rewrite Hret, Hnum, Hcat. vm_compute. reflexivity.
Defined.

(** ** The chart tool *)

Lemma error_outcome_is_error (msg : string) :
  is_error_outcome (error_outcome msg).
Proof.
  unfold is_error_outcome, error_outcome. split.
  - rewrite lookup_singleton_eq. now eexists.
  - now rewrite lookup_singleton_ne.
Qed.

Lemma image_outcome_is_image (img_base64 chart_type : string) :
  is_image_outcome (image_outcome img_base64 chart_type).
Proof.
  unfold is_image_outcome, image_outcome. split.
  - rewrite lookup_insert_eq. now eexists.
  - rewrite lookup_insert_ne by discriminate.
    now rewrite lookup_singleton_ne.
Qed.

Lemma bar_line_error_names_counts (chart_type : string) (n_cat n_num : nat) :
  names_counts (bar_line_columns_error chart_type n_cat n_num) n_cat n_num
  = true.
Proof.
  unfold names_counts, bar_line_columns_error. apply andb_true_intro. split.
  - do 3 apply contains_app_r. apply contains_here.
  - do 5 apply contains_app_r. apply contains_here.
Qed.

Lemma unknown_chart_type_error_names_allowed (chart_type : string) :
  PyStr.contains "bar, line, pie, scatter, heatmap"
                 (unknown_chart_type_error chart_type) = true.
Proof.
  unfold unknown_chart_type_error. do 2 apply contains_app_r.
  vm_compute. reflexivity.
Qed.

Section ChartProperties.

Variable Cell : Type.
Variable to_numeric : Series Cell -> PyResult (list (option Q)).
Variable db_execute : string -> PyResult (DataFrame Cell).
Variable plt_figure : PyResult unit.
Variable draw : DataFrame Cell -> Plot -> PyResult string.

Lemma chart_dispatch_early_return
      (df : DataFrame Cell) (numeric_cols cat_cols : list string)
      (chart_type title : string) (d : Dict) :
  chart_dispatch to_numeric df numeric_cols cat_cols chart_type title
  = Return (inl d) ->
  exists msg, d = error_outcome msg.
Proof.
  unfold chart_dispatch.
  repeat match goal with
         | |- context [if ?b then _ else _] => destruct b
         | |- context [bind ?m _] => destruct m; simpl
         end;
    intros H; try discriminate H; injection H as <-; now eexists.
Qed.

Lemma chart_dispatch_below_minimum
      (df : DataFrame Cell) (numeric_cols cat_cols : list string)
      (chart_type title : string) :
  below_minimum chart_type (length cat_cols) (length numeric_cols) = true ->
  chart_dispatch to_numeric df numeric_cols cat_cols chart_type title
  = Return (inl (error_outcome
                   (minimum_error chart_type (length cat_cols)
                                  (length numeric_cols)))).
Proof.
  unfold below_minimum, minimum_error, chart_dispatch.
  destruct (String.eqb_spec chart_type "pie") as [->|Hpie].
  { intros ->. reflexivity. }
  destruct (String.eqb_spec chart_type "scatter") as [->|Hscatter].
  { simpl. intros ->. reflexivity. }
  destruct (String.eqb_spec chart_type "heatmap") as [->|Hheat].
  { simpl. intros ->. reflexivity. }
  destruct (String.eqb chart_type "bar" || String.eqb chart_type "line");
    [|discriminate].
  destruct ((length cat_cols =? 0)%nat && (1 <=? length numeric_cols)%nat);
    [discriminate|].
  destruct ((length cat_cols =? 1)%nat && (1 <=? length numeric_cols)%nat);
    [discriminate|].
  destruct ((2 <=? length cat_cols)%nat && (1 <=? length numeric_cols)%nat);
    [discriminate|].
  reflexivity.
Qed.

Lemma generate_chart_try_shape (query chart_type title : string) (d : Dict) :
  generate_chart_try to_numeric db_execute plt_figure draw
                     query chart_type title = Return d ->
  (exists msg, d = error_outcome msg)
  \/ (exists img_base64, d = image_outcome img_base64 chart_type).
Proof.
  unfold generate_chart_try.
  destruct (db_execute query) as [df|e]; simpl; [|discriminate].
  destruct (df_empty df).
  { intros H. injection H as <-. left. now eexists. }
  destruct (classify_columns to_numeric df) as [cols|e]; simpl;
    [|discriminate].
  destruct plt_figure as [u|e]; simpl; [|discriminate].
  destruct (chart_dispatch _ _ _ _ _ _) as [[outcome|plot]|e] eqn:Hd; simpl;
    [| |discriminate].
  - intros H. injection H as <-. left.
    eapply chart_dispatch_early_return, Hd.
  - destruct (draw df plot) as [img|e]; simpl; [|discriminate].
    intros H. injection H as <-. right. now eexists.
Qed.

Lemma generate_chart_returns (query chart_type title : string) :
  exists d,
    generate_chart to_numeric db_execute plt_figure draw
                   query chart_type title = Return d
    /\ (is_image_outcome d \/ is_error_outcome d).
Proof.
  unfold generate_chart.
  destruct (generate_chart_try _ _ _ _ _ _ _) as [d|e] eqn:Htry; simpl.
  - exists d. split; [reflexivity|].
    apply generate_chart_try_shape in Htry as [[msg ->] | [img ->]].
    + right. apply error_outcome_is_error.
    + left. apply image_outcome_is_image.
  - eexists. split; [reflexivity|]. right. apply error_outcome_is_error.
Qed.

Lemma generate_chart_below_minimum
      (query chart_type title : string) (df : DataFrame Cell)
      (numeric_cols cat_cols : list string) :
  db_execute query = Return df ->
  df_empty df = false ->
  classify_columns to_numeric df = Return (numeric_cols, cat_cols) ->
  below_minimum chart_type (length cat_cols) (length numeric_cols) = true ->
  generate_chart to_numeric db_execute plt_figure draw query chart_type title
  = match plt_figure with
    | Return _ =>
        Return (error_outcome
                  (minimum_error chart_type (length cat_cols)
                                 (length numeric_cols)))
    | Raise e => Return (error_outcome (exn_str e))
    end.
Proof.
  intros Hdb Hempty Hcls Hbelow.
  unfold generate_chart, generate_chart_try.
  rewrite Hdb. simpl. rewrite Hempty, Hcls. simpl.
  destruct plt_figure as [u|e]; simpl; [|reflexivity].
  now rewrite (chart_dispatch_below_minimum _ _ _ _ _ Hbelow).
Qed.

(** C4. On a non-empty result whose classified columns are below the
    minimum of the requested chart type (pie: no categorical or no numeric
    column; scatter: fewer than two numeric columns; heatmap: fewer than
    two categorical or no numeric column; bar and line: none of the three
    supported mixes), [generate_chart] returns a dictionary with an error
    message and no image; when the figure could be opened the message is
    the one of the chart type. *)
Theorem generate_chart_rejects_column_mix
        (query chart_type title : string) (df : DataFrame Cell)
        (numeric_cols cat_cols : list string) :
  db_execute query = Return df ->
  df_empty df = false ->
  classify_columns to_numeric df = Return (numeric_cols, cat_cols) ->
  below_minimum chart_type (length cat_cols) (length numeric_cols) = true ->
  exists d,
    generate_chart to_numeric db_execute plt_figure draw
                   query chart_type title = Return d
    /\ is_error_outcome d
    /\ ~ is_image_outcome d
    /\ (returns plt_figure ->
        d = error_outcome (minimum_error chart_type (length cat_cols)
                                         (length numeric_cols))).
Proof.
  intros Hdb Hempty Hcls Hbelow.
  rewrite (generate_chart_below_minimum _ _ _ _ _ _ Hdb Hempty Hcls Hbelow).
  destruct plt_figure as [u|e]; eexists; (split; [reflexivity|]);
    (split; [apply error_outcome_is_error|]); split.
  - intros [[x Hx] _]. unfold error_outcome in Hx.
    rewrite lookup_singleton_ne in Hx by discriminate. discriminate Hx.
  - reflexivity.
  - intros [[x Hx] _]. unfold error_outcome in Hx.
    rewrite lookup_singleton_ne in Hx by discriminate. discriminate Hx.
  - intros [u Hu]. discriminate Hu.
Qed.

(** C6. [generate_chart] never raises: it always returns a dictionary,
    which holds either an image or an error message. An empty result gives
    the error [Nenhum dado encontrado pela consulta.]; a chart type outside
    bar, line, pie, scatter and heatmap gives an error naming these five;
    an exception of the query or of the rendering gives the error whose
    message is the text of the exception. *)
Theorem generate_chart_never_raises (query chart_type title : string) :
  (exists d,
      generate_chart to_numeric db_execute plt_figure draw
                     query chart_type title = Return d
      /\ (is_image_outcome d \/ is_error_outcome d))
  /\ (forall df,
         db_execute query = Return df ->
         df_empty df = true ->
         generate_chart to_numeric db_execute plt_figure draw
                        query chart_type title
         = Return (error_outcome no_data_error))
  /\ (forall df,
         db_execute query = Return df ->
         df_empty df = false ->
         returns plt_figure ->
         known_chart_type chart_type = false ->
         generate_chart to_numeric db_execute plt_figure draw
                        query chart_type title
         = Return (error_outcome (unknown_chart_type_error chart_type))
         /\ PyStr.contains "bar, line, pie, scatter, heatmap"
                           (unknown_chart_type_error chart_type) = true)
  /\ (forall e,
         db_execute query = Raise e ->
         generate_chart to_numeric db_execute plt_figure draw
                        query chart_type title
         = Return (error_outcome (exn_str e)))
  /\ (forall df cols plot e,
         db_execute query = Return df ->
         df_empty df = false ->
         classify_columns to_numeric df = Return cols ->
         returns plt_figure ->
         chart_dispatch to_numeric df (fst cols) (snd cols) chart_type title
         = Return (inr plot) ->
         draw df plot = Raise e ->
         generate_chart to_numeric db_execute plt_figure draw
                        query chart_type title
         = Return (error_outcome (exn_str e)))
  /\ (forall e,
         generate_chart_try to_numeric db_execute plt_figure draw
                            query chart_type title = Raise e ->
         generate_chart to_numeric db_execute plt_figure draw
                        query chart_type title
         = Return (error_outcome (exn_str e))).
Proof.
  split; [apply generate_chart_returns|].
  split.
  { intros df Hdb Hempty. unfold generate_chart, generate_chart_try.
    rewrite Hdb. simpl. now rewrite Hempty. }
  split.
  { intros df Hdb Hempty [u Hfig] Hknown.
    split; [|apply unknown_chart_type_error_names_allowed].
    unfold generate_chart, generate_chart_try.
    rewrite Hdb. simpl. rewrite Hempty.
    rewrite classify_columns_filter. simpl. rewrite Hfig. simpl.
    unfold known_chart_type, PyStr.any in Hknown. simpl in Hknown.
    repeat (apply orb_false_elim in Hknown as [? Hknown]).
    unfold chart_dispatch.
    repeat match goal with
           | H : String.eqb chart_type _ = false |- _ => rewrite H; clear H
           end.
    reflexivity. }
  split.
  { intros e Hdb. unfold generate_chart, generate_chart_try.
    now rewrite Hdb. }
  split.
  { intros df cols plot e Hdb Hempty Hcls [u Hfig] Hdisp Hdraw.
    unfold generate_chart, generate_chart_try.
    rewrite Hdb. simpl. rewrite Hempty, Hcls. simpl. rewrite Hfig. simpl.
    rewrite Hdisp. simpl. now rewrite Hdraw. }
  intros e Htry. unfold generate_chart. now rewrite Htry.
Qed.

(** C8, as the source has it. The column-count error of the bar and line
    branches names the observed numbers of categorical and numeric columns;
    the error of the heatmap branch is a fixed text that states the
    required minimum, whatever the observed numbers are. *)
Theorem column_count_error_messages
        (query chart_type title : string) (df : DataFrame Cell)
        (numeric_cols cat_cols : list string) :
  db_execute query = Return df ->
  df_empty df = false ->
  classify_columns to_numeric df = Return (numeric_cols, cat_cols) ->
  returns plt_figure ->
  below_minimum chart_type (length cat_cols) (length numeric_cols) = true ->
  (chart_type = "bar" \/ chart_type = "line" ->
   generate_chart to_numeric db_execute plt_figure draw
                  query chart_type title
   = Return (error_outcome
               (bar_line_columns_error chart_type (length cat_cols)
                                       (length numeric_cols)))
   /\ names_counts (bar_line_columns_error chart_type (length cat_cols)
                                           (length numeric_cols))
                   (length cat_cols) (length numeric_cols) = true)
  /\ (chart_type = "heatmap" ->
      generate_chart to_numeric db_execute plt_figure draw
                     query chart_type title
      = Return (error_outcome heatmap_columns_error)).
Proof.
  intros Hdb Hempty Hcls [u Hfig] Hbelow.
  rewrite (generate_chart_below_minimum _ _ _ _ _ _ Hdb Hempty Hcls Hbelow).
  rewrite Hfig. split.
  - intros Hct. split; [|apply bar_line_error_names_counts].
    destruct Hct as [-> | ->]; reflexivity.
  - intros ->. reflexivity.
Qed.

End ChartProperties.

Lemma generate_chart_rejects_column_mix_witness :
  generate_chart Demo.to_numeric Demo.db_one_measure Demo.plt_figure Demo.draw
                 "SELECT x FROM t" "pie" EmptyString
  = Return (error_outcome pie_columns_error).
Proof.
  assert (Hcls : classify_columns Demo.to_numeric Demo.one_measure
                 = Return (["x"], [])) by (vm_compute; reflexivity).
  destruct (generate_chart_rejects_column_mix
              string Demo.to_numeric Demo.db_one_measure Demo.plt_figure
              Demo.draw "SELECT x FROM t" "pie" EmptyString Demo.one_measure ["x"] []
              eq_refl eq_refl Hcls eq_refl) as [d [Hret [_ [_ Hmsg]]]].
  rewrite Hret, Hmsg; [reflexivity | now exists tt].
Defined.

Lemma generate_chart_never_raises_witness :
  generate_chart Demo.to_numeric Demo.db_no_rows Demo.plt_figure Demo.draw
                 "SELECT x FROM t WHERE 1 = 0" "bar" EmptyString
  = Return (error_outcome no_data_error)
  /\ generate_chart Demo.to_numeric Demo.db_one_measure Demo.plt_figure
                    Demo.draw "SELECT x FROM t" "radar" EmptyString
     = Return (error_outcome (unknown_chart_type_error "radar")).
Proof.
  split.
  - destruct (generate_chart_never_raises
                string Demo.to_numeric Demo.db_no_rows Demo.plt_figure
                Demo.draw "SELECT x FROM t WHERE 1 = 0" "bar" EmptyString)
      as [_ [Hempty _]].
    apply (Hempty (MkDataFrame ["x"] [])); reflexivity.
  - destruct (generate_chart_never_raises
                string Demo.to_numeric Demo.db_one_measure Demo.plt_figure
                Demo.draw "SELECT x FROM t" "radar" EmptyString)
      as [_ [_ [Hunknown _]]].
    apply (Hunknown Demo.one_measure);
      [reflexivity | reflexivity | now exists tt | reflexivity].
Defined.

Lemma column_count_error_messages_witness :
  generate_chart Demo.to_numeric Demo.db_one_category Demo.plt_figure
                 Demo.draw "SELECT category FROM t" "bar" EmptyString
  = Return (error_outcome (bar_line_columns_error "bar" 1 0))
  /\ names_counts (bar_line_columns_error "bar" 1 0) 1 0 = true.
Proof.
  assert (Hcls : classify_columns Demo.to_numeric Demo.one_category
                 = Return ([], ["category"])) by (vm_compute; reflexivity).
  destruct (column_count_error_messages
              string Demo.to_numeric Demo.db_one_category Demo.plt_figure
              Demo.draw "SELECT category FROM t" "bar" EmptyString Demo.one_category
              [] ["category"] eq_refl eq_refl Hcls
              (ex_intro _ tt eq_refl) eq_refl) as [Hbar _].
  exact (Hbar (or_introl eq_refl)).
Defined.

(** C8 as stated fails for the heatmap branch: on a result with no
    categorical and three numeric columns the error is the fixed text, which
    shows neither 0 nor 3. *)
Lemma heatmap_error_omits_counts :
  classify_columns Demo.to_numeric Demo.three_measures
  = Return (["a"; "b"; "c"], [])
  /\ generate_chart Demo.to_numeric Demo.db_three_measures Demo.plt_figure
                    Demo.draw "SELECT a, b, c FROM t" "heatmap" EmptyString
     = Return (error_outcome heatmap_columns_error)
  /\ names_counts heatmap_columns_error 0 3 = false.
Proof. repeat split; vm_compute; reflexivity. Qed.

(** ** The tool execution node *)

Section ToolNodeProperties.

Variable str_of_dict : Dict -> string.

Lemma tool_loop_expected (tools : gmap string Tool) (calls : list ToolCall) :
  (forall call tool,
      In call calls -> tools !! tc_name call = Some tool ->
      returns (tool (tc_args call))) ->
  forall resultados,
    tool_loop str_of_dict tools calls resultados
    = Return (resultados ++ expected_messages str_of_dict tools calls)%list.
Proof.
  induction calls as [|call calls IH]; intros Hret resultados; simpl.
  - now rewrite app_nil_r.
  - assert (Hrest : forall call' tool,
               In call' calls -> tools !! tc_name call' = Some tool ->
               returns (tool (tc_args call')))
      by (intros call' tool Hin; apply Hret; now right).
    destruct (tools !! tc_name call) as [tool|] eqn:Hlook.
    + destruct (Hret call tool (or_introl eq_refl) Hlook) as [obs Hobs].
      rewrite Hobs. simpl. rewrite (IH Hrest), <- app_assoc. reflexivity.
    + now rewrite (IH Hrest).
Qed.

Lemma expected_messages_origin (tools : gmap string Tool)
      (calls : list ToolCall) (m : Message) :
  In m (expected_messages str_of_dict tools calls) ->
  exists call tool observacao,
    In call calls
    /\ tools !! tc_name call = Some tool
    /\ tool (tc_args call) = Return observacao
    /\ m = ToolMessage (message_content str_of_dict observacao)
                       (tc_id call).
Proof.
  unfold expected_messages. rewrite in_flat_map.
  intros [call [Hin Hm]].
  destruct (tools !! tc_name call) as [tool|] eqn:Hlook; [|destruct Hm].
  destruct (tool (tc_args call)) as [obs|e] eqn:Hobs; [|destruct Hm].
  destruct Hm as [<- | []]. now exists call, tool, obs.
Qed.

(** C7. For the tool calls of the last assistant message, [tool_node]
    returns, in the order of the calls, one [ToolMessage] for every call
    whose tool is registered, tagged with the identifier of the call; its
    content is the image when the handler returns a dictionary with an
    [image] entry, else [Erro ao gerar gráfico: ] followed by the error
    when it has an [error] entry, else the handler result passed through
    [str]. A call naming an unregistered tool adds no message and leaves
    the messages of the other calls as they are. A state without messages,
    with an empty message list, or whose last message has no tool calls or
    no [tool_calls] attribute yields the empty list, without error. *)
Theorem tool_node_messages (state : State) (tools : gmap string Tool) :
  (messages state = None \/ messages state = Some [] ->
   tool_node str_of_dict state tools = Return [])
  /\ (forall msgs m,
         messages state = Some msgs -> last msgs = Some m ->
         (forall c calls, m <> AIMessage c calls) ->
         tool_node str_of_dict state tools = Return [])
  /\ (forall msgs c,
         messages state = Some msgs -> last msgs = Some (AIMessage c []) ->
         tool_node str_of_dict state tools = Return [])
  /\ (forall msgs c calls,
         messages state = Some msgs ->
         last msgs = Some (AIMessage c calls) ->
         (forall call tool,
             In call calls -> tools !! tc_name call = Some tool ->
             returns (tool (tc_args call))) ->
         tool_node str_of_dict state tools
         = Return (expected_messages str_of_dict tools calls)
         /\ (forall m,
                In m (expected_messages str_of_dict tools calls) ->
                exists call tool observacao,
                  In call calls
                  /\ tools !! tc_name call = Some tool
                  /\ tool (tc_args call) = Return observacao
                  /\ m = ToolMessage
                           (message_content str_of_dict observacao)
                           (tc_id call))
         /\ (forall calls1 call calls2,
                calls = (calls1 ++ call :: calls2)%list ->
                tools !! tc_name call = None ->
                expected_messages str_of_dict tools calls
                = expected_messages str_of_dict tools (calls1 ++ calls2)))
  /\ (forall d image,
         d !! "image" = Some image ->
         message_content str_of_dict (VDict d) = image)
  /\ (forall d error,
         d !! "image" = None -> d !! "error" = Some error ->
         message_content str_of_dict (VDict d)
         = "Erro ao gerar gráfico: " ++ error)
  /\ (forall d,
         d !! "image" = None -> d !! "error" = None ->
         message_content str_of_dict (VDict d) = py_str str_of_dict (VDict d))
  /\ (forall s, message_content str_of_dict (VStr s) = s).
Proof.
  split.
  { intros [H | H]; unfold tool_node, last_msg_tool_calls; now rewrite H. }
  split.
  { intros msgs m Hmsgs Hlast Hother.
    unfold tool_node, last_msg_tool_calls. rewrite Hmsgs, Hlast.
    destruct m; try reflexivity. now destruct (Hother content0 tool_calls0). }
  split.
  { intros msgs c Hmsgs Hlast.
    unfold tool_node, last_msg_tool_calls. now rewrite Hmsgs, Hlast. }
  split.
  { intros msgs c calls Hmsgs Hlast Hret. split; [|split].
    - unfold tool_node, last_msg_tool_calls. rewrite Hmsgs, Hlast. simpl.
      now rewrite tool_loop_expected.
    - apply expected_messages_origin.
    - intros calls1 call calls2 -> Hnone. unfold expected_messages.
      rewrite !flat_map_app. cbn [flat_map]. unfold Tool in *.
      now rewrite Hnone. }
  split.
  { intros d image H. simpl. now rewrite H. }
  split.
  { intros d error H1 H2. simpl. now rewrite H1, H2. }
  split.
  { intros d H1 H2. simpl. now rewrite H1, H2. }
  reflexivity.
Qed.

End ToolNodeProperties.

Lemma tool_node_messages_witness :
  tool_node Demo.str_of_dict
            (Demo.state_with 1 [AIMessage EmptyString [Demo.call_unknown;
                                              Demo.call_show_tables]])
            Demo.tools
  = Return [ToolMessage "chats" "call_1"].
Proof.
  destruct (tool_node_messages
              Demo.str_of_dict
              (Demo.state_with 1 [AIMessage EmptyString [Demo.call_unknown;
                                                Demo.call_show_tables]])
              Demo.tools) as [_ [_ [_ [Hcalls _]]]].
  destruct (Hcalls [AIMessage EmptyString [Demo.call_unknown; Demo.call_show_tables]]
                   EmptyString [Demo.call_unknown; Demo.call_show_tables]
                   eq_refl eq_refl) as [Hret _].
  - intros call tool _ Hlook. unfold Demo.tools in Hlook.
    apply lookup_singleton_Some in Hlook as [_ <-]. now eexists.
  - rewrite Hret. vm_compute. reflexivity.
Defined.

(** ** The read-only query tool *)

Lemma upper_ascii_app (s1 s2 : string) :
  upper_ascii (s1 ++ s2) = upper_ascii s1 ++ upper_ascii s2.
Proof. induction s1 as [|a s1 IH]; simpl; [reflexivity | now rewrite IH]. Qed.

Lemma contains_prefix_of (n m s : string) :
  PyStr.startswith n m = true -> PyStr.contains n (m ++ s) = true.
Proof.
  intros H.
  assert (Hs : PyStr.startswith n (m ++ s) = true).
  { revert m H. induction n as [|a n IH]; intros m H; [reflexivity|].
    destruct m as [|b m]; [discriminate|]. simpl in *.
    destruct (Ascii.eqb a b); [now apply IH | discriminate]. }
  destruct (m ++ s); simpl in *; now rewrite Hs.
Qed.

(** C10. [consult_database] returns the fixed rejection, and hands nothing
    to [db.execute], for every query whose upper-cased text contains one of
    DELETE, ALTER, CREATE, DROP, UPDATE, INSERT, TRUNCATE, REPLACE; this
    includes every query, read-only or not, that mentions an identifier such
    as [updated_at]. *)
Theorem consult_database_rejects_keywords
        (db_execute : string -> PyResult QueryResult) :
  (forall (upper : string -> string) (query cmd : string),
      In cmd ["DELETE"; "ALTER"; "CREATE"; "DROP"; "UPDATE"; "INSERT";
              "TRUNCATE"; "REPLACE"] ->
      PyStr.contains cmd (upper query) = true ->
      consult_database upper db_execute query
      = MkDbCall [] (Return read_only_rejection))
  /\ (forall before after : string,
         consult_database upper_ascii db_execute
                          (before ++ "updated_at" ++ after)
         = MkDbCall [] (Return read_only_rejection)).
Proof.
  assert (Hgen : forall (upper : string -> string) (query cmd : string),
             In cmd forbidden ->
             PyStr.contains cmd (upper query) = true ->
             consult_database upper db_execute query
             = MkDbCall [] (Return read_only_rejection)).
  { intros upper query cmd Hin Hc. unfold consult_database, PyStr.any.
    assert (H : existsb (fun cmd => PyStr.contains cmd (upper query)) forbidden
                = true) by (apply existsb_exists; now exists cmd).
    now rewrite H. }
  split; [exact Hgen|].
  intros before after. apply (Hgen upper_ascii _ "UPDATE").
  - unfold forbidden. simpl. tauto.
  - rewrite upper_ascii_app. apply contains_app_r.
    rewrite upper_ascii_app. now apply contains_prefix_of.
Qed.

Lemma consult_database_rejects_keywords_witness :
  consult_database upper_ascii Demo.db_rows "SELECT updated_at FROM chats"
  = MkDbCall [] (Return read_only_rejection)
  /\ executed (consult_database upper_ascii Demo.db_rows
                                "SELECT id FROM chats")
     = ["SELECT id FROM chats"].
Proof.
  destruct (consult_database_rejects_keywords Demo.db_rows) as [Hgen _].
  split; [|reflexivity].
  apply (Hgen upper_ascii "SELECT updated_at FROM chats" "UPDATE").
  - simpl. tauto.
  - vm_compute. reflexivity.
Defined.

(** * Further properties of the graph *)

Section GraphInvariants.

Variable str_of_dict : Dict -> string.
Variable chart_decision : string -> PyResult bool.
Variable llm_call_node : State -> PyResult Message.
Variable generic_llm_invoke : string -> PyResult Message.

Let run := graph_run str_of_dict chart_decision llm_call_node
                     generic_llm_invoke.

(** What a node other than [decide_chart] does to the state: it appends
    to [messages] and touches nothing else but [iterations]. *)
Lemma run_node_appends (self : ChatGraph) (node : Node)
      (state state' : State) :
  node <> decide_chart ->
  run_node str_of_dict chart_decision llm_call_node generic_llm_invoke
           self node state = Return state' ->
  (exists new, messages state' = Some (get_messages state ++ new)%list
               /\ (node <> environment -> new <> []))
  /\ chat_id state' = chat_id state
  /\ user_question state' = user_question state
  /\ file state' = file state.
Proof.
  intros Hnode. destruct node; [congruence| | |]; simpl.
  - unfold llm_call_wrapper.
    destruct (llm_call_node _) as [m|e]; simpl; [|discriminate].
    intros H. injection H as <-. split; [|repeat split].
    exists [m]. split; [reflexivity | discriminate].
  - unfold generic_llm_call_wrapper.
    destruct (generic_llm_invoke _) as [m|e]; simpl; [|discriminate].
    intros H. injection H as <-. split; [|repeat split].
    exists [m]. split; [reflexivity | discriminate].
  - unfold tool_node_wrapper.
    destruct (tool_node _ _ _) as [new|e]; simpl; [|discriminate].
    intros H. injection H as <-. split; [|repeat split].
    exists new. split; [reflexivity | congruence].
Qed.

Lemma next_node_not_decide (self : ChatGraph) (node : Node) (state : State)
      (node' : Node) :
  fst (next_node self node state) = Some node' -> node' <> decide_chart.
Proof.
  destruct node; simpl.
  - destruct (default false (needs_chart state)); intros H;
      injection H as <-; discriminate.
  - unfold should_continue_wrapper.
    destruct (should_continue self state) as [[|] self']; simpl;
      [discriminate|]. intros H. injection H as <-. discriminate.
  - discriminate.
  - destruct (should_end_after_environment state); [discriminate|].
    intros H. injection H as <-. discriminate.
Qed.

(** From any node but [decide_chart], a run that returns has only appended
    to the messages. *)
Lemma graph_run_appends (fuel : nat) :
  forall (self : ChatGraph) (node : Node) (state : State)
         (trace : list Node) (final : State),
    node <> decide_chart ->
    result (run fuel self node state trace) = Return final ->
    (exists extra, messages final = Some (get_messages state ++ extra)%list
                   /\ (node <> environment -> extra <> []))
    /\ chat_id final = chat_id state
    /\ user_question final = user_question state
    /\ file final = file state.
Proof.
  induction fuel as [|fuel IH]; intros self node state trace final Hnode;
    [discriminate|].
  unfold run. cbn [graph_run]. fold run.
  destruct (run_node _ _ _ _ self node state) as [state'|e] eqn:Hrun;
    [|discriminate].
  destruct (run_node_appends _ _ _ _ Hnode Hrun)
    as [[new [Hnew Hne]] [Hc [Hq Hf]]].
  pose proof (next_node_not_decide self node state') as Hnext.
  destruct (next_node self node state') as [[node'|] self'] eqn:Hnx;
    cbn [result].
  - intros Hres.
    destruct (IH self' node' (channels state') _ final
                 (Hnext node' eq_refl) Hres)
      as [[extra [Hextra _]] [Hc' [Hq' Hf']]].
    cbn [channels chat_id user_question file] in Hc', Hq', Hf'.
    split; [|repeat split; congruence].
    exists (new ++ extra)%list. split.
    + rewrite Hextra. unfold get_messages at 1. cbn [channels messages].
      rewrite Hnew. simpl. now rewrite app_assoc.
    + intros Hnenv Happ. apply app_eq_nil in Happ as [Hnil _].
      now apply Hne.
  - intros H. injection H as <-. cbn [channels messages chat_id
                                              user_question file].
    split; [|now repeat split].
    exists new. split; assumption.
Qed.

(** X1. A run of the graph that returns has only appended to the message
    list it was given, by at least one message, and has left [chat_id],
    [user_question] and [file] as they were. *)
Theorem graph_invoke_appends_messages
        (recursion_limit : nat) (self : ChatGraph) (state final : State) :
  result (graph_invoke str_of_dict chart_decision llm_call_node
                       generic_llm_invoke recursion_limit self state)
  = Return final ->
  (exists extra,
      extra <> []
      /\ messages final = Some (get_messages state ++ extra)%list)
  /\ chat_id final = chat_id state
  /\ user_question final = user_question state
  /\ file final = file state.
Proof.
  unfold graph_invoke. destruct recursion_limit as [|fuel]; [discriminate|].
  cbn [graph_run run_node]. unfold determine_chart_needed_wrapper.
  destruct (chart_decision (user_question (channels state))) as [needs|e];
    cbn [bind next_node]; [|discriminate].
  set (node := if default false
                    (needs_chart (set_needs_chart needs (channels state)))
               then llm_call else generic_llm).
  assert (Hnode : node <> decide_chart /\ node <> environment)
    by (unfold node; destruct (default _ _); split; discriminate).
  intros Hres.
  destruct (graph_run_appends
              fuel self node
              (channels (set_needs_chart needs (channels state)))
              _ final (proj1 Hnode) Hres)
    as [[extra [Hextra Hne]] [Hc [Hq Hf]]].
  split; [|now repeat split].
  exists extra. split; [apply Hne, Hnode | exact Hextra].
Qed.

(** X2. When the decision is that no chart is needed, the graph runs
    [decide_chart] and [generic_llm] and ends: the model is called once, its
    answer is the only message added, and the tool node does not run, also
    when the answer requests tools. *)
Theorem generic_path_single_call
        (recursion_limit : nat) (self : ChatGraph) (state : State)
        (response : Message) :
  chart_decision (user_question state) = Return false ->
  generic_llm_invoke (user_question state) = Return response ->
  (2 <= recursion_limit)%nat ->
  graph_invoke str_of_dict chart_decision llm_call_node generic_llm_invoke
               recursion_limit self state
  = MkRun [decide_chart; generic_llm] self
          (Return (extend_messages [response] (channels state)))
  /\ visits environment
            (visited (graph_invoke str_of_dict chart_decision llm_call_node
                                   generic_llm_invoke recursion_limit self
                                   state)) = 0%nat.
Proof.
  intros Hdec Hgen Hlimit.
  assert (Hrun : graph_invoke str_of_dict chart_decision llm_call_node
                              generic_llm_invoke recursion_limit self state
                 = MkRun [decide_chart; generic_llm] self
                         (Return (extend_messages [response]
                                                  (channels state)))).
  { unfold graph_invoke.
    destruct recursion_limit as [|[|fuel]]; [lia | lia |].
    cbn [graph_run run_node]. unfold determine_chart_needed_wrapper.
    cbn [channels user_question]. rewrite Hdec.
    cbn [bind next_node needs_chart set_needs_chart].
    change (if default false (Some false) then llm_call else generic_llm)
      with generic_llm.
    cbn [graph_run run_node]. unfold generic_llm_call_wrapper.
    change (user_question (channels (set_needs_chart false (channels state))))
      with (user_question state).
    rewrite Hgen. reflexivity. }
  split; [exact Hrun | now rewrite Hrun].
Qed.

(** How a run of the compiled graph starts. *)
Lemma graph_invoke_cases (recursion_limit : nat) (self : ChatGraph)
      (state : State) :
  let r := graph_invoke str_of_dict chart_decision llm_call_node
                        generic_llm_invoke recursion_limit self state in
  (visited r = [] /\ instance r = self
   /\ exists e, result r = Raise e /\ recursion_limit = 0%nat)
  \/ (visited r = [decide_chart] /\ instance r = self
      /\ exists e, result r = Raise e
                   /\ chart_decision (user_question state) = Raise e)
  \/ (exists fuel,
         recursion_limit = S fuel
         /\ chart_decision (user_question state) = Return true
         /\ r = run fuel self llm_call (channels state) [decide_chart])
  \/ (exists fuel,
         recursion_limit = S fuel
         /\ chart_decision (user_question state) = Return false
         /\ r = run fuel self generic_llm (channels state) [decide_chart]).
Proof.
  cbv zeta. unfold graph_invoke.
  destruct recursion_limit as [|fuel].
  { left. cbn. repeat split. now eexists. }
  cbn [graph_run run_node]. unfold determine_chart_needed_wrapper.
  cbn [channels user_question].
  destruct (chart_decision (user_question state)) as [[|]|e] eqn:Hd;
    cbn [bind next_node needs_chart set_needs_chart].
  - right. right. left. exists fuel. now repeat split.
  - right. right. right. exists fuel. now repeat split.
  - right. left. cbn. repeat split. now exists e.
Qed.

Lemma generic_run_cases (fuel : nat) (self : ChatGraph) (state : State)
      (trace : list Node) :
  let r := run fuel self generic_llm state trace in
  instance r = self
  /\ (visited r = trace \/ visited r = (trace ++ [generic_llm])%list).
Proof.
  cbv zeta. destruct fuel as [|fuel]; unfold run; cbn [graph_run run_node].
  - split; [reflexivity | now left].
  - destruct (generic_llm_call_wrapper _ _) as [state'|e]; cbn;
      (split; [reflexivity | now right]).
Qed.

Lemma llm_call_wrapper_last (state state' : State) :
  llm_call_wrapper llm_call_node state = Return state' ->
  exists m,
    llm_call_node (set_iterations (get_iterations state + 1) state) = Return m
    /\ last (get_messages state') = Some m.
Proof.
  unfold llm_call_wrapper.
  destruct (llm_call_node _) as [m|e]; simpl; [|discriminate].
  intros H. injection H as <-. exists m. split; [reflexivity|].
  unfold get_messages, extend_messages. simpl. apply last_snoc.
Qed.

(** A run executes no more nodes than its fuel. *)
Lemma trace_length (fuel : nat) :
  forall (self : ChatGraph) (node : Node) (state : State)
         (trace : list Node),
    (length (visited (run fuel self node state trace))
     <= length trace + fuel)%nat.
Proof.
  induction fuel as [|fuel IH]; intros self node state trace;
    unfold run; cbn [graph_run]; fold run.
  - simpl. lia.
  - destruct (run_node _ _ _ _ self node state) as [state'|e];
      [|cbn [visited]; rewrite length_app; simpl; lia].
    destruct (next_node self node state') as [[node'|] self'];
      [|cbn [visited]; rewrite length_app; simpl; lia].
    specialize (IH self' node' (channels state') (trace ++ [node])%list).
    rewrite length_app in IH. simpl in IH. lia.
Qed.

(** The tool node runs only after [should_continue] let the loop go on. *)
Lemma tool_visits_invariant (fuel : nat) :
  forall (self : ChatGraph) (node : Node) (state : State)
         (trace : list Node),
    node = llm_call \/ node = environment ->
    get_iterations state = 0 ->
    let r := run fuel self node state trace in
    let ve := Z.of_nat (visits environment (visited r))
              - Z.of_nat (visits environment trace) in
    let vl := Z.of_nat (visits llm_call (visited r))
              - Z.of_nat (visits llm_call trace) in
    0 <= ve
    /\ (node = llm_call ->
        ve <= vl /\ (max_iterations self <= 1 -> ve = 0))
    /\ (node = environment -> ve <= 1 + vl).
Proof.
  induction fuel as [|fuel IH]; intros self node state trace Hnode Hzero;
    cbv zeta.
  - simpl. repeat split; lia.
  - destruct Hnode as [-> | ->]; unfold run; cbn [graph_run run_node];
      fold run.
    + destruct (llm_call_wrapper llm_call_node state) as [state'|e] eqn:Hw.
      * apply llm_call_wrapper_increments in Hw.
        unfold next_node, should_continue_wrapper.
        destruct (should_continue self state') as [decision self'] eqn:Hsc.
        destruct decision; cbn [visited].
        -- rewrite !visits_snoc. simpl. repeat split; try lia; discriminate.
        -- assert (Hlt : get_iterations state' < max_iterations self).
           { destruct (Z_lt_le_dec (get_iterations state')
                                   (max_iterations self)) as [?|Hge];
               [assumption|].
             rewrite (should_continue_at_ceiling _ _ Hge) in Hsc.
             discriminate Hsc. }
           specialize (IH self' environment (channels state')
                          (trace ++ [llm_call])%list
                          (or_intror eq_refl) eq_refl).
           cbv zeta in IH. rewrite !visits_snoc in IH. simpl in IH.
           destruct IH as [H0 [_ Henv]].
           specialize (Henv eq_refl).
           repeat split; try lia; discriminate.
      * cbn [visited]. rewrite !visits_snoc. simpl.
        repeat split; try lia; discriminate.
    + destruct (tool_node_wrapper str_of_dict self state) as [state'|e].
      * unfold next_node.
        destruct (should_end_after_environment state'); cbn [visited].
        -- rewrite !visits_snoc. simpl. repeat split; try lia; discriminate.
        -- specialize (IH self llm_call (channels state')
                          (trace ++ [environment])%list
                          (or_introl eq_refl) eq_refl).
           cbv zeta in IH. rewrite !visits_snoc in IH. simpl in IH.
           destruct IH as [H0 [Hllm _]].
           specialize (Hllm eq_refl).
           repeat split; try lia; discriminate.
      * cbn [visited]. rewrite !visits_snoc. simpl.
        repeat split; try lia; discriminate.
Qed.

(** X3. The tool node runs only between calls of the chart model: in any
    run [environment] is never visited more often than [llm_call], the
    number of nodes executed never exceeds the recursion limit of the
    engine, and an instance whose ceiling on the iterations is at most 1
    never runs the tool node. *)
Theorem tool_batches_bounded
        (recursion_limit : nat) (self : ChatGraph) (state : State) :
  let r := graph_invoke str_of_dict chart_decision llm_call_node
                        generic_llm_invoke recursion_limit self state in
  (visits environment (visited r) <= visits llm_call (visited r))%nat
  /\ (length (visited r) <= recursion_limit)%nat
  /\ (max_iterations self <= 1 -> visits environment (visited r) = 0%nat).
Proof.
  cbv zeta. split; [|split].
  - destruct (graph_invoke_cases recursion_limit self state)
      as [[Hv _] | [[Hv _] | [[fuel [_ [_ Hr]]] | [fuel [_ [_ Hr]]]]]];
      cbv zeta in *.
    + rewrite Hv. unfold visits. simpl. lia.
    + rewrite Hv. unfold visits. simpl. lia.
    + rewrite Hr.
      pose proof (tool_visits_invariant fuel self llm_call (channels state)
                    [decide_chart] (or_introl eq_refl) eq_refl) as H.
      cbv zeta in H. destruct H as [H0 [Hllm _]].
      destruct (Hllm eq_refl) as [Hle _].
      change (visits environment [decide_chart]) with 0%nat in *.
      change (visits llm_call [decide_chart]) with 0%nat in *.
      lia.
    + rewrite Hr.
      destruct (generic_run_cases fuel self (channels state) [decide_chart])
        as [_ [-> | ->]]; unfold visits; simpl; lia.
  - unfold graph_invoke.
    pose proof (trace_length recursion_limit self decide_chart
                             (channels state) []) as H.
    simpl in H. exact H.
  - intros Hmax.
    destruct (graph_invoke_cases recursion_limit self state)
      as [[Hv _] | [[Hv _] | [[fuel [_ [_ Hr]]] | [fuel [_ [_ Hr]]]]]];
      cbv zeta in *.
    + now rewrite Hv.
    + now rewrite Hv.
    + rewrite Hr.
      pose proof (tool_visits_invariant fuel self llm_call (channels state)
                    [decide_chart] (or_introl eq_refl) eq_refl) as H.
      cbv zeta in H. destruct H as [H0 [Hllm _]].
      destruct (Hllm eq_refl) as [_ Hz]. specialize (Hz Hmax).
      change (visits environment [decide_chart]) with 0%nat in *.
      lia.
    + rewrite Hr.
      destruct (generic_run_cases fuel self (channels state) [decide_chart])
        as [_ [-> | ->]]; reflexivity.
Qed.

Lemma should_continue_counter (self : ChatGraph) (state : State) :
  0 <= erros_consecutivos self <= 3 ->
  0 <= erros_consecutivos (snd (should_continue self state)) <= 4
  /\ (fst (should_continue self state) = Action ->
      erros_consecutivos (snd (should_continue self state)) <= 3).
Proof.
  intros Hc.
  destruct (Z_lt_le_dec (get_iterations state) (max_iterations self))
    as [Hlt|Hge].
  - destruct (last (get_messages state)) as [m|] eqn:Hlast.
    + rewrite (should_continue_below _ _ _ Hlt Hlast). cbn [fst snd].
      rewrite count_errors_streak.
      destruct (has_error_signature m).
      * destruct (Z.gtb_spec (erros_consecutivos self + 1) 3); simpl.
        -- split; [lia | discriminate].
        -- split; [lia | intros _; lia].
      * split; [lia | intros _; lia].
    + unfold should_continue.
      destruct (Z.geb_spec (get_iterations state) (max_iterations self));
        [lia|].
      rewrite Hlast. simpl. split; [lia | intros _; lia].
  - rewrite (should_continue_at_ceiling _ _ Hge). simpl.
    split; [lia | discriminate].
Qed.

(** The counter of consecutive errors stays between 0 and 4 along the
    chart loop, and the rest of the instance is not touched. *)
Lemma counter_invariant (fuel : nat) :
  forall (self : ChatGraph) (node : Node) (state : State)
         (trace : list Node),
    node = llm_call \/ node = environment ->
    0 <= erros_consecutivos self <= 3 ->
    let r := run fuel self node state trace in
    0 <= erros_consecutivos (instance r) <= 4
    /\ max_iterations (instance r) = max_iterations self
    /\ tools_by_name (instance r) = tools_by_name self.
Proof.
  induction fuel as [|fuel IH]; intros self node state trace Hnode Hc;
    cbv zeta.
  - simpl. repeat split; lia.
  - destruct Hnode as [-> | ->]; unfold run; cbn [graph_run run_node];
      fold run.
    + destruct (llm_call_wrapper llm_call_node state) as [state'|e];
        [|simpl; repeat split; lia].
      unfold next_node, should_continue_wrapper.
      pose proof (should_continue_config self state') as [Hmax Htools].
      pose proof (should_continue_counter self state' Hc) as [Hr Ha].
      destruct (should_continue self state') as [decision self'] eqn:Hsc.
      cbn [fst snd] in *.
      destruct decision; cbn [instance]; [now repeat split|].
      specialize (IH self' environment (channels state')
                     (trace ++ [llm_call])%list (or_intror eq_refl)).
      cbv zeta in IH. destruct IH as [H1 [H2 H3]];
        [specialize (Ha eq_refl); lia|].
      repeat split; try lia; congruence.
    + destruct (tool_node_wrapper str_of_dict self state) as [state'|e];
        [|simpl; repeat split; lia].
      unfold next_node.
      destruct (should_end_after_environment state'); cbn [instance];
        [repeat split; lia|].
      apply IH; [now left | assumption].
Qed.

(** X4. Along a run the instance keeps its ceiling and its tool registry,
    and its counter of consecutive errors, when it starts between 0 and 3,
    stays between 0 and 4. *)
Theorem error_counter_range
        (recursion_limit : nat) (self : ChatGraph) (state : State) :
  0 <= erros_consecutivos self <= 3 ->
  let r := graph_invoke str_of_dict chart_decision llm_call_node
                        generic_llm_invoke recursion_limit self state in
  0 <= erros_consecutivos (instance r) <= 4
  /\ max_iterations (instance r) = max_iterations self
  /\ tools_by_name (instance r) = tools_by_name self.
Proof.
  intros Hc. cbv zeta.
  destruct (graph_invoke_cases recursion_limit self state)
    as [[_ [Hi _]] | [[_ [Hi _]] | [[fuel [_ [_ Hr]]] | [fuel [_ [_ Hr]]]]]];
    cbv zeta in *.
  - rewrite Hi. repeat split; lia.
  - rewrite Hi. repeat split; lia.
  - rewrite Hr. apply counter_invariant; [now left | assumption].
  - rewrite Hr.
    destruct (generic_run_cases fuel self (channels state)
                                [decide_chart]) as [-> _].
    repeat split; lia.
Qed.

(** When every answer of the model carries an error signature, the streak
    ends the loop. *)
Lemma error_answers_invariant (fuel : nat) :
  (forall s m, llm_call_node s = Return m -> has_error_signature m = true) ->
  forall (self : ChatGraph) (node : Node) (state : State)
         (trace : list Node),
    node = llm_call \/ node = environment ->
    0 <= erros_consecutivos self ->
    let r := run fuel self node state trace in
    Z.of_nat (visits llm_call (visited r)) - Z.of_nat (visits llm_call trace)
    <= Z.max 1 (4 - erros_consecutivos self).
Proof.
  intros Hsig.
  induction fuel as [|fuel IH]; intros self node state trace Hnode Hc;
    cbv zeta.
  - simpl. lia.
  - destruct Hnode as [-> | ->]; unfold run; cbn [graph_run run_node];
      fold run.
    + destruct (llm_call_wrapper llm_call_node state) as [state'|e] eqn:Hw;
        [|cbn [visited]; rewrite visits_snoc; simpl; lia].
      destruct (llm_call_wrapper_last _ _ Hw) as [m [Hm Hlast]].
      apply Hsig in Hm.
      unfold next_node, should_continue_wrapper.
      destruct (Z_lt_le_dec (get_iterations state') (max_iterations self))
        as [Hlt|Hge].
      * rewrite (should_continue_below _ _ _ Hlt Hlast).
        pose proof (count_errors_streak self m) as Hstreak.
        rewrite Hm in Hstreak.
        set (self' := snd (count_errors_consecutivos self m)) in *.
        destruct (Z.gtb_spec (erros_consecutivos self') 3) as [Hgt|Hle];
          cbn [orb].
        -- cbn [visited]. rewrite visits_snoc. simpl. lia.
        -- destruct (is_image_message m).
           ++ cbn [visited]. rewrite visits_snoc. simpl. lia.
           ++ specialize (IH self' environment (channels state')
                             (trace ++ [llm_call])%list (or_intror eq_refl)).
              cbv zeta in IH. rewrite visits_snoc in IH. simpl in IH.
              rewrite Hstreak in *. specialize (IH ltac:(lia)). lia.
      * rewrite (should_continue_at_ceiling _ _ Hge).
        cbn [visited]. rewrite visits_snoc. simpl. lia.
    + destruct (tool_node_wrapper str_of_dict self state) as [state'|e];
        [|cbn [visited]; rewrite visits_snoc; simpl; lia].
      unfold next_node.
      destruct (should_end_after_environment state'); cbn [visited].
      * rewrite visits_snoc. simpl. lia.
      * specialize (IH self llm_call (channels state')
                       (trace ++ [environment])%list
                       (or_introl eq_refl) Hc).
        cbv zeta in IH. rewrite visits_snoc in IH. simpl in IH. lia.
Qed.

(** X5. The circuit breaker: when every answer of the model carries a
    database-error signature, a run of an instance whose counter is at zero
    calls the chart model at most four times, whatever the ceiling on the
    iterations is. *)
Theorem error_streak_stops_chart_loop
        (recursion_limit : nat) (self : ChatGraph) (state : State) :
  (forall s m, llm_call_node s = Return m -> has_error_signature m = true) ->
  erros_consecutivos self = 0 ->
  (visits llm_call
          (visited (graph_invoke str_of_dict chart_decision llm_call_node
                                 generic_llm_invoke recursion_limit self
                                 state)) <= 4)%nat.
Proof.
  intros Hsig Hc.
  destruct (graph_invoke_cases recursion_limit self state)
    as [[Hv _] | [[Hv _] | [[fuel [_ [_ Hr]]] | [fuel [_ [_ Hr]]]]]];
    cbv zeta in *.
  - rewrite Hv. unfold visits. simpl. lia.
  - rewrite Hv. unfold visits. simpl. lia.
  - rewrite Hr.
    pose proof (error_answers_invariant fuel Hsig self llm_call
                  (channels state) [decide_chart]
                  (or_introl eq_refl)) as H.
    cbv zeta in H. rewrite Hc in H.
    change (visits llm_call [decide_chart]) with 0%nat in H.
    specialize (H ltac:(lia)). lia.
  - rewrite Hr.
    destruct (generic_run_cases fuel self (channels state)
                                [decide_chart]) as [_ [-> | ->]];
      unfold visits; simpl; lia.
Qed.

(** A plain answer does not stop the loop: the tool node has nothing to
    run, the model is called again, and its wrapper counts from zero again,
    so that a ceiling of two or more is never met. *)
Lemma plain_answers_invariant (fuel : nat) :
  (forall s, exists m, llm_call_node s = Return m /\ plain_answer m) ->
  forall (self : ChatGraph) (node : Node) (state : State)
         (trace : list Node),
    2 <= max_iterations self ->
    get_iterations state = 0 ->
    (node = llm_call
     \/ (node = environment
         /\ exists msgs m, messages state = Some msgs
                           /\ last msgs = Some m /\ plain_answer m)) ->
    let r := run fuel self node state trace in
    (node = llm_call ->
     visits llm_call (visited r)
     = (visits llm_call trace + Nat.div2 (S fuel))%nat)
    /\ (node = environment ->
        visits llm_call (visited r)
        = (visits llm_call trace + Nat.div2 fuel)%nat)
    /\ result r = Raise (MkExn GraphRecursionError "Recursion limit reached").
Proof.
  intros Hplain.
  induction fuel as [|fuel IH]; intros self node state trace Hmax Hzero Hn;
    cbv zeta.
  - simpl. repeat split; intros _; lia.
  - destruct Hn as [-> | [-> [msgs [m [Hmsgs [Hlast Hm]]]]]];
      unfold run; cbn [graph_run run_node]; fold run.
    + destruct (llm_call_wrapper llm_call_node state) as [state'|e] eqn:Hw.
      2:{ unfold llm_call_wrapper in Hw.
          destruct (Hplain (set_iterations (get_iterations state + 1) state))
            as [m [Hm _]].
          rewrite Hm in Hw. discriminate Hw. }
      pose proof (llm_call_wrapper_increments _ _ _ Hw) as Hit.
      destruct (llm_call_wrapper_last _ _ Hw) as [m [Hm Hlast]].
      destruct (Hplain (set_iterations (get_iterations state + 1) state))
        as [m' [Hm' Hpl]].
      rewrite Hm in Hm'. injection Hm' as <-.
      assert (Hsome : exists msgs, messages state' = Some msgs
                                   /\ last msgs = Some m).
      { unfold llm_call_wrapper in Hw. rewrite Hm in Hw. simpl in Hw.
        injection Hw as <-. eexists. split; [reflexivity|]. apply last_snoc. }
      destruct Hsome as [msgs [Hmsgs Hlastm]].
      pose proof Hpl as [Hai [Hnosig Hnoimg]].
      unfold next_node, should_continue_wrapper.
      assert (Hlt : get_iterations state' < max_iterations self) by lia.
      rewrite (should_continue_below _ _ _ Hlt Hlast).
      pose proof (count_errors_streak self m) as Hstreak.
      pose proof (count_errors_max self m) as [Hmax' _].
      rewrite Hnosig in Hstreak.
      set (self' := snd (count_errors_consecutivos self m)) in *.
      rewrite Hstreak, Hnoimg. change (0 >? 3) with false. cbn [orb].
      specialize (IH self' environment (channels state')
                     (trace ++ [llm_call])%list).
      cbv zeta in IH. rewrite visits_snoc in IH. cbn [Node_eqb] in IH.
      destruct IH as [_ [Hv Hres]].
      { rewrite Hmax'. exact Hmax. }
      { reflexivity. }
      { right. split; [reflexivity|]. exists msgs, m.
        cbn [channels messages]. now repeat split. }
      specialize (Hv eq_refl).
      split; [|split]; [intros _ | discriminate | exact Hres].
      rewrite Hv. destruct fuel as [|fuel']; cbn [Nat.div2]; lia.
    + assert (Htool : tool_node str_of_dict state (tools_by_name self)
                      = Return []).
      { destruct Hm as [[text ->] _].
        unfold tool_node, last_msg_tool_calls. now rewrite Hmsgs, Hlast. }
      unfold tool_node_wrapper. rewrite Htool. cbn [bind].
      assert (Hsame : messages (extend_messages [] state) = Some msgs).
      { unfold extend_messages, get_messages. rewrite Hmsgs. simpl.
        now rewrite app_nil_r. }
      assert (Hend : should_end_after_environment (extend_messages [] state)
                     = Action).
      { unfold should_end_after_environment, get_messages.
        rewrite Hsame. simpl default. rewrite Hlast.
        destruct Hm as [_ [_ Hnoimg]]. now rewrite Hnoimg. }
      unfold next_node. rewrite Hend.
      specialize (IH self llm_call (channels (extend_messages [] state))
                     (trace ++ [environment])%list Hmax eq_refl
                     (or_introl eq_refl)).
      cbv zeta in IH. rewrite visits_snoc in IH. cbn [Node_eqb] in IH.
      destruct IH as [Hv [_ Hres]]. specialize (Hv eq_refl).
      split; [|split]; [discriminate | intros _ | exact Hres].
      rewrite Hv. lia.
Qed.

(** X6. An answer in plain text does not end the chart loop. When the model
    always answers without tool calls, image or error signature and the
    ceiling on the iterations is 2 or more, the chart path calls the model
    again and again until the recursion limit of the engine stops it: the
    model is called [recursion_limit / 2] times and the run ends in the
    recursion-limit error, never in [END]. With a ceiling of at most 1 the
    run ends after the first answer. *)
Theorem plain_answers_exhaust_recursion_limit
        (recursion_limit : nat) (self : ChatGraph) (state : State) :
  chart_decision (user_question state) = Return true ->
  (forall s, exists m, llm_call_node s = Return m /\ plain_answer m) ->
  let r := graph_invoke str_of_dict chart_decision llm_call_node
                        generic_llm_invoke recursion_limit self state in
  (2 <= max_iterations self ->
   visits llm_call (visited r) = (recursion_limit / 2)%nat
   /\ result r = Raise (MkExn GraphRecursionError "Recursion limit reached"))
  /\ (max_iterations self <= 1 -> (2 <= recursion_limit)%nat ->
      visited r = [decide_chart; llm_call]
      /\ exists final, result r = Return final).
Proof.
  intros Hdec Hplain. cbv zeta. split.
  - intros Hmax.
    destruct (graph_invoke_cases recursion_limit self state)
      as [[Hv [_ [e [He H0]]]] | [[_ [_ [e [_ He]]]] | [[fuel [Hf [_ Hr]]]
                                                      | [fuel [_ [Hd _]]]]]];
      cbv zeta in *.
    + rewrite Hv. subst recursion_limit. split; [reflexivity|].
      reflexivity.
    + rewrite Hdec in He. discriminate He.
    + rewrite Hr.
      destruct (plain_answers_invariant fuel Hplain self llm_call
                  (channels state) [decide_chart] Hmax eq_refl
                  (or_introl eq_refl))
        as [Hv [_ Hres]].
      specialize (Hv eq_refl).
      change (visits llm_call [decide_chart]) with 0%nat in Hv.
      split; [|exact Hres].
      rewrite Hv, Hf, <- Nat.div2_div. reflexivity.
    + rewrite Hdec in Hd. discriminate Hd.
  - intros Hmax Hlimit. unfold graph_invoke.
    destruct recursion_limit as [|[|fuel]]; [lia | lia |].
    cbn [graph_run run_node]. unfold determine_chart_needed_wrapper.
    cbn [channels user_question]. rewrite Hdec.
    cbn [bind next_node needs_chart set_needs_chart].
    change (if default false (Some true) then llm_call else generic_llm)
      with llm_call.
    cbn [graph_run run_node].
    destruct (llm_call_wrapper llm_call_node _) as [state'|e] eqn:Hw.
    2:{ unfold llm_call_wrapper in Hw.
        match type of Hw with
        | context [llm_call_node ?s] => destruct (Hplain s) as [m [Hm _]]
        end.
        rewrite Hm in Hw. discriminate Hw. }
    apply llm_call_wrapper_increments in Hw.
    change (get_iterations (channels _)) with 0 in Hw.
    cbn [next_node]. unfold should_continue_wrapper.
    rewrite should_continue_at_ceiling by lia.
    cbn. split; [reflexivity | now eexists].
Qed.

End GraphInvariants.

Lemma graph_invoke_appends_messages_witness :
  exists final extra,
    result (graph_invoke Demo.str_of_dict Demo.wants_chart
                         Examples.llm_asks_chart Demo.generic_answer 25
                         (ChatGraph_init Examples.chart_tools 5)
                         (initial_state "7" "vendas por mes" None))
    = Return final
    /\ extra <> []
    /\ messages final = Some extra
    /\ user_question final = "vendas por mes".
Proof.
  assert (H : exists final,
             result (graph_invoke Demo.str_of_dict Demo.wants_chart
                                  Examples.llm_asks_chart Demo.generic_answer
                                  25 (ChatGraph_init Examples.chart_tools 5)
                                  (initial_state "7" "vendas por mes" None))
             = Return final) by (vm_compute; eexists; reflexivity).
  destruct H as [final Hfinal].
  destruct (graph_invoke_appends_messages
              Demo.str_of_dict Demo.wants_chart Examples.llm_asks_chart
              Demo.generic_answer 25 (ChatGraph_init Examples.chart_tools 5)
              (initial_state "7" "vendas por mes" None) final Hfinal)
    as [[extra [Hne Hm]] [_ [Hq _]]].
  exists final, extra. repeat split; assumption.
Defined.

Lemma generic_path_single_call_witness :
  visited (graph_invoke Demo.str_of_dict Examples.no_chart
                        Demo.llm_always_tool Examples.generic_with_tool 25
                        (ChatGraph_init Demo.tools 5)
                        (initial_state "7" "quantos chats existem" None))
  = [decide_chart; generic_llm].
Proof.
  destruct (generic_path_single_call
              Demo.str_of_dict Examples.no_chart Demo.llm_always_tool
              Examples.generic_with_tool 25 (ChatGraph_init Demo.tools 5)
              (initial_state "7" "quantos chats existem" None)
              (AIMessage EmptyString [Demo.call_show_tables])
              eq_refl eq_refl) as [Hrun _]; [lia|].
  now rewrite Hrun.
Defined.

Lemma tool_batches_bounded_witness :
  visits environment
         (visited (graph_invoke Demo.str_of_dict Demo.wants_chart
                                Demo.llm_always_tool Demo.generic_answer 25
                                (ChatGraph_init Demo.tools 1)
                                (initial_state "7" "vendas por mes" None)))
  = 0%nat.
Proof.
  destruct (tool_batches_bounded
              Demo.str_of_dict Demo.wants_chart Demo.llm_always_tool
              Demo.generic_answer 25 (ChatGraph_init Demo.tools 1)
              (initial_state "7" "vendas por mes" None)) as [_ [_ Hnone]].
  apply Hnone. simpl. lia.
Defined.

Lemma error_counter_range_witness :
  0 <= erros_consecutivos
         (instance (graph_invoke Demo.str_of_dict Demo.wants_chart
                                 Demo.llm_always_error Demo.generic_answer 25
                                 (ChatGraph_init Demo.tools 10)
                                 (initial_state "7" "vendas por mes" None)))
    <= 4.
Proof.
  apply (error_counter_range
           Demo.str_of_dict Demo.wants_chart Demo.llm_always_error
           Demo.generic_answer 25 (ChatGraph_init Demo.tools 10)
           (initial_state "7" "vendas por mes" None)).
  simpl. lia.
Defined.

Lemma error_streak_stops_chart_loop_witness :
  (visits llm_call
          (visited (graph_invoke Demo.str_of_dict Demo.wants_chart
                                 Demo.llm_always_error Demo.generic_answer 25
                                 (ChatGraph_init Demo.tools 10)
                                 (initial_state "7" "vendas por mes" None)))
   <= 4)%nat.
Proof.
  apply error_streak_stops_chart_loop; [|reflexivity].
  intros s m H. injection H as <-. reflexivity.
Defined.

Lemma plain_answers_exhaust_recursion_limit_witness :
  visits llm_call
         (visited (graph_invoke Demo.str_of_dict Demo.wants_chart
                                Examples.llm_plain Demo.generic_answer 25
                                (ChatGraph_init Demo.tools 5)
                                (initial_state "7" "vendas por mes" None)))
  = 12%nat
  /\ result (graph_invoke Demo.str_of_dict Demo.wants_chart
                          Examples.llm_plain Demo.generic_answer 25
                          (ChatGraph_init Demo.tools 5)
                          (initial_state "7" "vendas por mes" None))
     = Raise (MkExn GraphRecursionError "Recursion limit reached").
Proof.
  destruct (plain_answers_exhaust_recursion_limit
              Demo.str_of_dict Demo.wants_chart Examples.llm_plain
              Demo.generic_answer 25 (ChatGraph_init Demo.tools 5)
              (initial_state "7" "vendas por mes" None)) as [Hloop _].
  - reflexivity.
  - intros s. eexists. split; [reflexivity|].
    split; [now eexists | split; reflexivity].
  - apply Hloop. vm_compute. discriminate.
Defined.

(** * Further properties of the tool node *)

Section ToolNodeFailures.

Variable str_of_dict : Dict -> string.

Lemma tool_loop_raises (tools : gmap string Tool)
      (calls1 : list ToolCall) (call : ToolCall) (calls2 : list ToolCall)
      (tool : Tool) (e : Exn) :
  (forall call' tool',
      In call' calls1 -> tools !! tc_name call' = Some tool' ->
      returns (tool' (tc_args call'))) ->
  tools !! tc_name call = Some tool ->
  tool (tc_args call) = Raise e ->
  forall resultados,
    tool_loop str_of_dict tools (calls1 ++ call :: calls2) resultados
    = Raise e.
Proof.
  intros Hret Hlook Hraise.
  induction calls1 as [|c calls1 IH]; intros resultados; simpl.
  - unfold Tool in *. now rewrite Hlook, Hraise.
  - assert (Hrest : forall call' tool',
               In call' calls1 -> tools !! tc_name call' = Some tool' ->
               returns (tool' (tc_args call')))
      by (intros call' tool' Hin; apply Hret; now right).
    destruct (tools !! tc_name c) as [t|] eqn:Hc; [|now apply IH].
    destruct (Hret c t (or_introl eq_refl) Hc) as [obs ->]. simpl.
    now apply IH.
Qed.

(** X7. [tool_node] does not catch what a handler raises: when the handler
    of a call raises, the node raises the same exception, whatever its
    class, and the messages of the calls answered before it are lost with
    the rest of the batch. *)
Theorem tool_node_handler_failure
        (state : State) (tools : gmap string Tool) (msgs : list Message)
        (text : string) (calls1 : list ToolCall) (call : ToolCall)
        (calls2 : list ToolCall) (tool : Tool) (e : Exn) :
  messages state = Some msgs ->
  last msgs = Some (AIMessage text (calls1 ++ call :: calls2)) ->
  (forall call' tool',
      In call' calls1 -> tools !! tc_name call' = Some tool' ->
      returns (tool' (tc_args call'))) ->
  tools !! tc_name call = Some tool ->
  tool (tc_args call) = Raise e ->
  tool_node str_of_dict state tools = Raise e.
Proof.
  intros Hmsgs Hlast Hret Hlook Hraise.
  unfold tool_node, last_msg_tool_calls. rewrite Hmsgs, Hlast. simpl.
  now apply (tool_loop_raises tools calls1 call calls2 tool e).
Qed.

Lemma expected_messages_snoc (tools : gmap string Tool)
      (calls : list ToolCall) (call : ToolCall) (tool : Tool)
      (observacao : PyValue) :
  tools !! tc_name call = Some tool ->
  tool (tc_args call) = Return observacao ->
  expected_messages str_of_dict tools (calls ++ [call])
  = (expected_messages str_of_dict tools calls
     ++ [ToolMessage (message_content str_of_dict observacao) (tc_id call)])%list.
Proof.
  intros Hlook Hobs. unfold expected_messages.
  rewrite flat_map_app. cbn [flat_map]. unfold Tool in *.
  now rewrite Hlook, Hobs, app_nil_r.
Qed.

Lemma tool_node_wrapper_last_call
      (self : ChatGraph) (state : State) (msgs : list Message)
      (text : string) (calls : list ToolCall) (call : ToolCall)
      (tool : Tool) (observacao : PyValue) :
  messages state = Some msgs ->
  last msgs = Some (AIMessage text (calls ++ [call])) ->
  (forall call' tool',
      In call' calls -> tools_by_name self !! tc_name call' = Some tool' ->
      returns (tool' (tc_args call'))) ->
  tools_by_name self !! tc_name call = Some tool ->
  tool (tc_args call) = Return observacao ->
  exists state',
    tool_node_wrapper str_of_dict self state = Return state'
    /\ last (get_messages state')
       = Some (ToolMessage (message_content str_of_dict observacao)
                           (tc_id call)).
Proof.
  intros Hmsgs Hlast Hret Hlook Hobs.
  assert (Hall : forall call' tool',
             In call' (calls ++ [call]) ->
             tools_by_name self !! tc_name call' = Some tool' ->
             returns (tool' (tc_args call'))).
  { intros call' tool' Hin Hl. apply in_app_or in Hin as [Hin | [<- | []]].
    - now apply Hret.
    - unfold Tool in *. rewrite Hlook in Hl. injection Hl as <-.
      now exists observacao. }
  unfold tool_node_wrapper, tool_node, last_msg_tool_calls.
  rewrite Hmsgs, Hlast. simpl.
  rewrite (tool_loop_expected str_of_dict _ _ Hall). simpl.
  eexists. split; [reflexivity|].
  rewrite (expected_messages_snoc _ _ _ _ _ Hlook Hobs).
  unfold get_messages, extend_messages. simpl.
  rewrite app_assoc. apply last_snoc.
Qed.

(** X8. The chart tool, the tool node and the router after it compose:
    when the last call of the batch is answered by the image dictionary of
    [generate_chart], the node appends a message holding the data URI and
    [should_end_after_environment] ends the graph; when it is answered by
    an error dictionary, the node appends [Erro ao gerar gráfico: ] followed
    by the error and the router sends the loop back to the model. *)
Theorem chart_outcome_routing
        (self : ChatGraph) (state : State) (msgs : list Message)
        (text : string) (calls : list ToolCall) (call : ToolCall)
        (tool : Tool) :
  messages state = Some msgs ->
  last msgs = Some (AIMessage text (calls ++ [call])) ->
  (forall call' tool',
      In call' calls -> tools_by_name self !! tc_name call' = Some tool' ->
      returns (tool' (tc_args call'))) ->
  tools_by_name self !! tc_name call = Some tool ->
  (forall img_base64 chart_type,
      tool (tc_args call)
      = Return (VDict (image_outcome img_base64 chart_type)) ->
      exists state',
        tool_node_wrapper str_of_dict self state = Return state'
        /\ last (get_messages state')
           = Some (ToolMessage ("data:image/png;base64," ++ img_base64)
                               (tc_id call))
        /\ should_end_after_environment state' = END)
  /\ (forall msg,
         tool (tc_args call) = Return (VDict (error_outcome msg)) ->
         exists state',
           tool_node_wrapper str_of_dict self state = Return state'
           /\ last (get_messages state')
              = Some (ToolMessage ("Erro ao gerar gráfico: " ++ msg)
                                  (tc_id call))
           /\ should_end_after_environment state' = Action).
Proof.
  intros Hmsgs Hlast Hret Hlook. split.
  - intros img_base64 chart_type Hobs.
    destruct (tool_node_wrapper_last_call self state msgs text calls call
                tool _ Hmsgs Hlast Hret Hlook Hobs) as [state' [Hw Hl]].
    exists state'. split; [exact Hw|].
    assert (Hc : message_content str_of_dict
                   (VDict (image_outcome img_base64 chart_type))
                 = "data:image/png;base64," ++ img_base64).
    { unfold message_content, image_outcome. now rewrite lookup_insert_eq. }
    rewrite Hc in Hl. split; [exact Hl|].
    unfold should_end_after_environment. rewrite Hl. reflexivity.
  - intros msg Hobs.
    destruct (tool_node_wrapper_last_call self state msgs text calls call
                tool _ Hmsgs Hlast Hret Hlook Hobs) as [state' [Hw Hl]].
    exists state'. split; [exact Hw|].
    assert (Hc : message_content str_of_dict (VDict (error_outcome msg))
                 = "Erro ao gerar gráfico: " ++ msg).
    { unfold message_content, error_outcome.
      rewrite lookup_singleton_ne by discriminate.
      now rewrite lookup_singleton_eq. }
    rewrite Hc in Hl. split; [exact Hl|].
    unfold should_end_after_environment. rewrite Hl. reflexivity.
Qed.

End ToolNodeFailures.

Lemma tool_node_handler_failure_witness :
  tool_node Demo.str_of_dict
            (Demo.state_with 1 [AIMessage EmptyString
                                          [Demo.call_show_tables;
                                           Examples.call_chart]])
            (<[ "generate_chart" := Examples.tool_raises ]> Demo.tools)
  = Raise (MkExn OtherException "validation error").
Proof.
  apply (tool_node_handler_failure
           Demo.str_of_dict _ _
           [AIMessage EmptyString [Demo.call_show_tables; Examples.call_chart]]
           EmptyString [Demo.call_show_tables] Examples.call_chart []
           Examples.tool_raises).
  - reflexivity.
  - reflexivity.
  - intros call' tool' [<- | []] Hlook.
    vm_compute in Hlook. injection Hlook as <-. now eexists.
  - vm_compute. reflexivity.
  - reflexivity.
Defined.

Lemma chart_outcome_routing_witness :
  exists state',
    tool_node_wrapper Demo.str_of_dict
                      (ChatGraph_init Examples.chart_tools 5)
                      (Demo.state_with 1 [AIMessage EmptyString
                                                    [Demo.call_show_tables;
                                                     Examples.call_chart]])
    = Return state'
    /\ should_end_after_environment state' = END.
Proof.
  destruct (chart_outcome_routing
              Demo.str_of_dict (ChatGraph_init Examples.chart_tools 5)
              (Demo.state_with 1 [AIMessage EmptyString
                                            [Demo.call_show_tables;
                                             Examples.call_chart]])
              [AIMessage EmptyString [Demo.call_show_tables;
                                      Examples.call_chart]]
              EmptyString [Demo.call_show_tables] Examples.call_chart
              Examples.chart_ok) as [Himg _].
  - reflexivity.
  - reflexivity.
  - intros call' tool' [<- | []] Hlook.
    vm_compute in Hlook. injection Hlook as <-. now eexists.
  - vm_compute. reflexivity.
  - destruct (Himg "iVBORw0KGgo=" "bar" eq_refl) as [state' [Hw [_ Hend]]].
    exists state'. split; assumption.
Defined.

(** * The answer kept by the controller *)

Lemma latest_content_skip (l1 l2 : list Message) (current : string) :
  (forall m, In m l1 -> PyStr.truthy (content m) = false) ->
  latest_content (l1 ++ l2) current = latest_content l2 current.
Proof.
  induction l1 as [|m l1 IH]; intros Hall; simpl; [reflexivity|].
  rewrite (Hall m (or_introl eq_refl)). apply IH.
  intros m' Hin. apply Hall. now right.
Qed.

Lemma latest_content_none (l : list Message) (current : string) :
  (forall m, In m l -> PyStr.truthy (content m) = false) ->
  latest_content l current = current.
Proof.
  intros Hall. rewrite <- (app_nil_r l).
  now rewrite latest_content_skip.
Qed.

Section Controller.

Variable str_of_dict : Dict -> string.
Variable chart_decision : string -> PyResult bool.
Variable llm_call_node : State -> PyResult Message.
Variable generic_llm_invoke : string -> PyResult Message.
Variable recursion_limit : nat.

Lemma graph_invoke_final_messages (self : ChatGraph) (state final : State) :
  result (graph_invoke str_of_dict chart_decision llm_call_node
                       generic_llm_invoke recursion_limit self state)
  = Return final ->
  exists msgs m, messages final = Some msgs /\ last msgs = Some m.
Proof.
  unfold graph_invoke. destruct recursion_limit as [|fuel]; [discriminate|].
  cbn [graph_run run_node]. unfold determine_chart_needed_wrapper.
  destruct (chart_decision (user_question (channels state))) as [needs|e];
    cbn [bind next_node]; [|discriminate].
  set (node := if default false
                    (needs_chart (set_needs_chart needs (channels state)))
               then llm_call else generic_llm).
  assert (Hnode : node <> decide_chart /\ node <> environment)
    by (unfold node; destruct (default _ _); split; discriminate).
  intros Hres.
  destruct (graph_run_appends
              str_of_dict chart_decision llm_call_node generic_llm_invoke
              fuel self node
              (channels (set_needs_chart needs (channels state)))
              _ final (proj1 Hnode) Hres)
    as [[extra [Hextra Hne]] _].
  specialize (Hne (proj2 Hnode)).
  destruct (exists_last Hne) as [extra' [m ->]].
  eexists. exists m. split; [exact Hextra|].
  rewrite app_assoc. apply last_snoc.
Qed.

(** X9. When [ChatGraph.invoke] returns the final state of the graph, the
    controller finds an answer without raising: the state has at least one
    message, and the answer is the content of the latest message whose
    content is not empty, the empty string when every content is empty. *)
Theorem controller_answer_from_final_state
        (self : ChatGraph) (chat question : string)
        (attached : option string) (final : State) :
  invoke str_of_dict chart_decision llm_call_node generic_llm_invoke
         recursion_limit self chat question attached
  = Return (FinalState final) ->
  exists answer,
    ia_response_content (FinalState final) = Return answer
    /\ (forall before m after,
           get_messages final = (before ++ m :: after)%list ->
           PyStr.truthy (content m) = true ->
           (forall m', In m' after -> PyStr.truthy (content m') = false) ->
           answer = content m)
    /\ ((forall m, In m (get_messages final) ->
                   PyStr.truthy (content m) = false) ->
        answer = EmptyString).
Proof.
  unfold invoke.
  destruct (result _) as [final'|e] eqn:Hres.
  2:{ destruct (exn_class e); discriminate. }
  intros H. injection H as ->.
  destruct (graph_invoke_final_messages _ _ _ Hres)
    as [msgs [mlast [Hmsgs Hlast]]].
  unfold ia_response_content, get_messages. rewrite Hmsgs, Hlast.
  simpl default.
  destruct (PyStr.truthy (content mlast)) eqn:Htruthy.
  - exists (content mlast). split; [reflexivity|]. split.
    + intros before m after Heq _ Hafter.
      destruct after as [|a after'] using rev_ind.
      * rewrite Heq in Hlast.
        change (before ++ [m])%list with (before ++ [m])%list in Hlast.
        rewrite last_snoc in Hlast. now injection Hlast as <-.
      * rewrite Heq in Hlast.
        rewrite app_comm_cons, app_assoc, last_snoc in Hlast.
        injection Hlast as <-.
        rewrite Hafter in Htruthy; [discriminate|].
        apply in_or_app. right. now left.
    + intros Hall. rewrite Hall in Htruthy; [discriminate|].
      apply list_elem_of_In, last_Some_elem_of, Hlast.
  - eexists. split; [reflexivity|]. split.
    + intros before m after Heq Hm Hafter.
      rewrite Heq, rev_app_distr. simpl rev. rewrite <- app_assoc.
      rewrite latest_content_skip.
      * simpl. now rewrite Hm.
      * intros m' Hin. apply Hafter. now apply in_rev.
    + intros Hall. rewrite latest_content_none.
      * destruct (content mlast); [reflexivity | discriminate].
      * intros m Hin. apply Hall. now apply in_rev.
Qed.

(** X10. The recovery of [ChatGraph.invoke] does not reach the user
    through this controller: the message of the dictionary returned on
    exhaustion of the recursion limit is itself a dictionary, so reading
    its [content] attribute raises [AttributeError]. *)
Theorem controller_fails_on_recursion_limit
        (self : ChatGraph) (chat question : string)
        (attached : option string) (e : Exn) :
  result (graph_invoke str_of_dict chart_decision llm_call_node
                       generic_llm_invoke recursion_limit self
                       (initial_state chat question attached))
  = Raise e ->
  exn_class e = GraphRecursionError ->
  exists data,
    invoke str_of_dict chart_decision llm_call_node generic_llm_invoke
           recursion_limit self chat question attached = Return data
    /\ exists failure,
        ia_response_content data = Raise failure
        /\ exn_class failure = AttributeError.
Proof.
  intros Hres Hclass. unfold invoke. rewrite Hres, Hclass.
  eexists. split; [reflexivity|]. eexists. split; reflexivity.
Qed.

End Controller.

Lemma controller_answer_from_final_state_witness :
  exists final,
    invoke Demo.str_of_dict Demo.wants_chart Examples.llm_asks_chart
           Demo.generic_answer 25 (ChatGraph_init Examples.chart_tools 5)
           "7" "vendas por mes" None = Return (FinalState final)
    /\ ia_response_content (FinalState final)
       = Return "data:image/png;base64,iVBORw0KGgo=".
Proof.
  assert (H : exists final,
             invoke Demo.str_of_dict Demo.wants_chart Examples.llm_asks_chart
                    Demo.generic_answer 25
                    (ChatGraph_init Examples.chart_tools 5)
                    "7" "vendas por mes" None = Return (FinalState final))
    by (vm_compute; eexists; reflexivity).
  destruct H as [final Hfinal]. exists final. split; [exact Hfinal|].
  destruct (controller_answer_from_final_state
              Demo.str_of_dict Demo.wants_chart Examples.llm_asks_chart
              Demo.generic_answer 25 (ChatGraph_init Examples.chart_tools 5)
              "7" "vendas por mes" None final Hfinal)
    as [answer [Hanswer _]].
  rewrite Hanswer. revert Hanswer. revert Hfinal.
  vm_compute. intros Hfinal. injection Hfinal as <-.
  vm_compute. intros H. exact (eq_sym H).
Defined.

Lemma controller_fails_on_recursion_limit_witness :
  exists data failure,
    invoke Demo.str_of_dict Demo.wants_chart Demo.llm_always_tool
           Demo.generic_answer 25 (ChatGraph_init Demo.tools 30)
           "7" "vendas por mes" None = Return data
    /\ ia_response_content data = Raise failure
    /\ exn_class failure = AttributeError.
Proof.
  destruct (controller_fails_on_recursion_limit
              Demo.str_of_dict Demo.wants_chart Demo.llm_always_tool
              Demo.generic_answer 25 (ChatGraph_init Demo.tools 30)
              "7" "vendas por mes" None
              (MkExn GraphRecursionError "Recursion limit reached"))
    as [data [Hdata [failure [Hfail Hclass]]]].
  - vm_compute. reflexivity.
  - reflexivity.
  - exists data, failure. repeat split; assumption.
Defined.

(** * The stored history *)

Lemma startswith_split (p s : string) :
  PyStr.startswith p s = true -> exists rest, s = p ++ rest.
Proof.
  revert s. induction p as [|a p IH]; intros s H.
  - now exists s.
  - destruct s as [|b s]; [discriminate|]. simpl in H.
    destruct (Ascii.eqb_spec a b) as [->|]; [|discriminate].
    destruct (IH s H) as [rest ->]. now exists rest.
Qed.

Lemma image_prefix_contains_base64 (s : string) :
  PyStr.startswith image_prefix s = true ->
  PyStr.contains "base64" s = true.
Proof.
  intros H. apply startswith_split in H as [rest ->].
  change (image_prefix ++ rest) with ("data:image/png;" ++ "base64" ++ rest).
  apply contains_app_r, contains_here.
Qed.

Section HistoryProperties.

Variable lower : string -> string.
Variable query_last : Z -> Z -> PyResult (list StoredMessage).

Lemma format_loop_map (rows : list StoredMessage) :
  forall formatted,
    format_loop lower rows formatted
    = (formatted ++ map (format_message lower) rows)%list.
Proof.
  induction rows as [|row rows IH]; intros formatted; simpl.
  - now rewrite app_nil_r.
  - now rewrite IH, <- app_assoc.
Qed.

(** X11. [get_k_messages_formatted] turns the rows of the history, which
    the store returns newest first, into one message each, oldest first;
    for [k <= 0] it returns the empty list without asking the store; what
    the store raises is raised. *)
Theorem history_is_oldest_first (chat k : Z) :
  (k <= 0 ->
   get_last_k_messages query_last chat k = ([], Return [])
   /\ get_k_messages_formatted lower query_last chat k = Return [])
  /\ (forall rows,
         0 < k -> query_last chat k = Return rows ->
         get_k_messages_formatted lower query_last chat k
         = Return (map (format_message lower) (rev rows))
         /\ fst (get_last_k_messages query_last chat k) = [(chat, k)])
  /\ (forall e,
         0 < k -> query_last chat k = Raise e ->
         get_k_messages_formatted lower query_last chat k = Raise e).
Proof.
  unfold get_k_messages_formatted, get_last_k_messages.
  split; [|split].
  - intros Hk. destruct (Z.leb_spec k 0); [now split | lia].
  - intros rows Hk Hq. destruct (Z.leb_spec k 0); [lia|]. simpl.
    rewrite Hq. simpl. now rewrite format_loop_map.
  - intros e Hk Hq. destruct (Z.leb_spec k 0); [lia|]. simpl.
    now rewrite Hq.
Qed.

Lemma format_message_redacts (row : StoredMessage) :
  redacted row (format_message lower row).
Proof.
  unfold redacted, format_message. cbv zeta.
  set (c := default EmptyString (stored_content row)).
  assert (Hcontent :
            content (if String.eqb (lower (sender row)) "agent"
                     then AIMessage (if PyStr.contains "base64" c
                                     then base64_placeholder else c) []
                     else HumanMessage (if PyStr.contains "base64" c
                                        then base64_placeholder else c))
            = if PyStr.contains "base64" c then base64_placeholder else c)
    by (destruct (String.eqb _ _); reflexivity).
  split; [|split].
  - intros Hc. rewrite Hcontent. now rewrite Hc.
  - intros Hc. rewrite Hcontent. now rewrite Hc.
  - unfold is_image_message. rewrite Hcontent.
    destruct (PyStr.contains "base64" c) eqn:Hc; [reflexivity|].
    destruct (PyStr.startswith image_prefix c) eqn:Hs;
      [|apply andb_false_r].
    apply image_prefix_contains_base64 in Hs. congruence.
Qed.

Lemma map_redacted (rows : list StoredMessage) :
  Forall2 redacted rows (map (format_message lower) rows).
Proof.
  induction rows as [|row rows IH]; simpl; constructor;
    [apply format_message_redacts | exact IH].
Qed.

(** X12. No image reaches the prompt through the history. The formatted
    history has one message for each row the store returned, oldest first,
    and for each row: when the stored content contains [base64] the
    content of the message is the placeholder [[Imagem em base64 omitida]];
    when it does not, the content is the stored one (the empty string for
    [None]); and the message is not an image. *)
Theorem history_redacts_images (chat k : Z) (formatted : list Message) :
  get_k_messages_formatted lower query_last chat k = Return formatted ->
  exists rows,
    snd (get_last_k_messages query_last chat k) = Return rows
    /\ Forall2 redacted (rev rows) formatted.
Proof.
  unfold get_k_messages_formatted.
  destruct (snd (get_last_k_messages query_last chat k)) as [rows|e];
    simpl; [|discriminate].
  intros H. injection H as <-. exists rows. split; [reflexivity|].
  rewrite format_loop_map. apply map_redacted.
Qed.

End HistoryProperties.

Lemma history_is_oldest_first_witness :
  get_k_messages_formatted Examples.lower_ascii Examples.query_stored 7 5
  = Return [AIMessage EmptyString [];
            HumanMessage "grafico de vendas";
            AIMessage "[Imagem em base64 omitida]" []].
Proof.
  destruct (history_is_oldest_first Examples.lower_ascii
                                    Examples.query_stored 7 5)
    as [_ [Hrows _]].
  destruct (Hrows Examples.stored) as [Hfmt _];
    [reflexivity | reflexivity |].
  rewrite Hfmt. vm_compute. reflexivity.
Defined.

Lemma history_redacts_images_witness :
  exists rows,
    snd (get_last_k_messages Examples.query_stored 7 5) = Return rows
    /\ Forall2 redacted (rev rows)
               [AIMessage EmptyString [];
                HumanMessage "grafico de vendas";
                AIMessage "[Imagem em base64 omitida]" []].
Proof.
  apply (history_redacts_images Examples.lower_ascii Examples.query_stored
                                7 5).
  vm_compute. reflexivity.
Defined.

(** * Further properties of the classifier and of the chart tool *)

Lemma positions_length (col : string) (cols : list string) :
  forall i, length (positions col cols i) = count_occ string_dec cols col.
Proof.
  induction cols as [|c cols IH]; intros i; simpl; [reflexivity|].
  destruct (String.eqb_spec c col) as [->|Hne].
  - destruct (string_dec col col); [|congruence]. simpl. now rewrite IH.
  - destruct (string_dec c col); [congruence|]. apply IH.
Qed.

Lemma isna_all_sum (converted : list (option Q)) :
  isna_all converted = true -> isna_sum converted = length converted.
Proof.
  unfold isna_all, isna_sum.
  induction converted as [|[q|] converted IH]; simpl;
    [reflexivity | discriminate |].
  intros H. now rewrite IH.
Qed.

Lemma isna_sum_all_valid (converted : list (option Q)) :
  (forall x, In x converted -> x <> None) -> isna_sum converted = 0%nat.
Proof.
  unfold isna_sum.
  induction converted as [|[q|] converted IH]; intros Hall; simpl.
  - reflexivity.
  - apply IH. intros x Hin. apply Hall. now right.
  - now destruct (Hall None (or_introl eq_refl)).
Qed.

Lemma isna_sum_none_valid (converted : list (option Q)) :
  (forall x, In x converted -> x = None) ->
  isna_sum converted = length converted.
Proof.
  unfold isna_sum.
  induction converted as [|[q|] converted IH]; intros Hall; simpl.
  - reflexivity.
  - discriminate (Hall (Some q) (or_introl eq_refl)).
  - rewrite IH; [reflexivity|]. intros x Hin. apply Hall. now right.
Qed.

Section ClassifierEdges.

Variable Cell : Type.
Variable to_numeric : Series Cell -> PyResult (list (option Q)).

Lemma numeric_column_threshold (df : DataFrame Cell) (c : string)
      (converted : list (option Q)) :
  pd_to_numeric to_numeric (getitem df c) = Return converted ->
  numeric_column to_numeric df c = true
  <-> (0 < length converted)%nat
      /\ (4 * length converted
          <= 5 * (length converted - isna_sum converted))%nat.
Proof.
  intros Hconv. unfold numeric_column. rewrite Hconv.
  rewrite <- not_na_ratio_valid_fraction.
  destruct (length converted) as [|n] eqn:Hlen.
  - unfold not_na_ratio. rewrite Hlen. simpl. split; [discriminate | lia].
  - rewrite <- Hlen. rewrite valid_fraction_threshold by lia.
    split; [intros H; split; [lia | exact H] | now intros [_ H]].
Qed.

(** X13. A column label that occurs more than once in the result is
    classified categorical at each of its occurrences and never numeric,
    whatever its cells hold: the coercion is handed the sub-frame of the
    columns that carry the label and fails. *)
Theorem repeated_label_is_categorical
        (df : DataFrame Cell) (c : string)
        (numeric_cols cat_cols : list string) :
  classify_columns to_numeric df = Return (numeric_cols, cat_cols) ->
  (2 <= count_occ string_dec (columns df) c)%nat ->
  ~ In c numeric_cols
  /\ count_occ string_dec cat_cols c = count_occ string_dec (columns df) c.
Proof.
  rewrite classify_columns_filter. intros H Hcount. injection H as <- <-.
  assert (Hnum : numeric_column to_numeric df c = false).
  { unfold numeric_column, getitem.
    pose proof (positions_length c (columns df) 0) as Hlen.
    destruct (positions c (columns df) 0) as [|j [|j' js]]; simpl in Hlen;
      try lia.
    reflexivity. }
  split.
  - intros Hin. apply List.filter_In in Hin as [_ Hin]. congruence.
  - induction (columns df) as [|x cols IH]; [reflexivity|]. simpl.
    destruct (string_dec x c) as [->|Hne].
    + rewrite Hnum. simpl.
      destruct (string_dec c c); [|congruence]. f_equal.
      destruct (le_lt_dec 2 (count_occ string_dec cols c)) as [Hle|Hlt].
      * now apply IH.
      * clear IH Hcount.
        induction cols as [|y cols IH']; [reflexivity|]. simpl in *.
        destruct (string_dec y c) as [->|Hyc].
        -- rewrite Hnum. simpl. destruct (string_dec c c); [|congruence].
           f_equal. apply IH'. lia.
        -- destruct (negb (numeric_column to_numeric df y)); simpl.
           ++ destruct (string_dec y c); [congruence|]. now apply IH'.
           ++ now apply IH'.
    + destruct (negb (numeric_column to_numeric df x)); simpl.
      * destruct (string_dec x c); [congruence|].
        apply IH. simpl in Hcount.
        destruct (string_dec x c); [congruence | exact Hcount].
      * apply IH. simpl in Hcount.
        destruct (string_dec x c); [congruence | exact Hcount].
Qed.

(** X14. A column whose coercion leaves every cell a number is numeric, a
    column whose coercion leaves no cell a number is categorical, and so is
    every column of a result without rows. *)
Theorem uniform_columns
        (df : DataFrame Cell) (c : string) (converted : list (option Q))
        (numeric_cols cat_cols : list string) :
  classify_columns to_numeric df = Return (numeric_cols, cat_cols) ->
  In c (columns df) ->
  pd_to_numeric to_numeric (getitem df c) = Return converted ->
  (converted <> [] -> (forall x, In x converted -> x <> None) ->
   In c numeric_cols)
  /\ ((forall x, In x converted -> x = None) -> In c cat_cols)
  /\ (converted = [] -> In c cat_cols).
Proof.
  rewrite classify_columns_filter. intros H Hin Hconv. injection H as <- <-.
  pose proof (numeric_column_threshold df c converted Hconv) as Hthr.
  assert (Hnone : (forall x, In x converted -> x = None) ->
                  In c (List.filter
                          (fun c => negb (numeric_column to_numeric df c))
                          (columns df))).
  { intros Hall. apply List.filter_In. split; [assumption|].
    destruct (numeric_column to_numeric df c); [|reflexivity].
    destruct (proj1 Hthr eq_refl) as [Hpos Hfrac].
    rewrite (isna_sum_none_valid _ Hall) in Hfrac. lia. }
  split; [|split].
  - intros Hne Hall. apply List.filter_In. split; [assumption|].
    apply Hthr. rewrite (isna_sum_all_valid _ Hall).
    destruct converted; [congruence | simpl; lia].
  - exact Hnone.
  - intros ->. apply Hnone. intros x [].
Qed.

End ClassifierEdges.

Lemma repeated_label_is_categorical_witness :
  classify_columns Demo.to_numeric Examples.repeated_label
  = Return (["b"], ["a"; "a"])
  /\ ~ In "a" ["b"].
Proof.
  assert (Hcls : classify_columns Demo.to_numeric Examples.repeated_label
                 = Return (["b"], ["a"; "a"])) by (vm_compute; reflexivity).
  split; [exact Hcls|].
  apply (repeated_label_is_categorical
           string Demo.to_numeric Examples.repeated_label "a"
           ["b"] ["a"; "a"] Hcls).
  vm_compute. lia.
Defined.

Lemma uniform_columns_witness : In "x" ["x"].
Proof.
  assert (Hcls : classify_columns Demo.to_numeric Demo.one_measure
                 = Return (["x"], [])) by (vm_compute; reflexivity).
  destruct (uniform_columns
              string Demo.to_numeric Demo.one_measure "x"
              [Some (inject_Z 1); Some (inject_Z 2)] ["x"] [] Hcls)
    as [Hnum _].
  - simpl. tauto.
  - vm_compute. reflexivity.
  - apply Hnum; [discriminate|].
    intros x [<- | [<- | []]]; discriminate.
Defined.

Section ChartCompleteness.

Variable Cell : Type.
Variable to_numeric : Series Cell -> PyResult (list (option Q)).
Variable db_execute : string -> PyResult (DataFrame Cell).
Variable plt_figure : PyResult unit.
Variable draw : DataFrame Cell -> Plot -> PyResult string.

Lemma item_head_In (l : list string) : l <> [] -> In (item l 0) l.
Proof. destruct l; [congruence | intros _; now left]. Qed.

(** The second error of the pie branch cannot occur: a column the
    classifier found numeric has a cell that holds a number. *)
Lemma numeric_column_not_all_na (df : DataFrame Cell) (c : string) :
  numeric_column to_numeric df c = true ->
  exists converted,
    pd_to_numeric to_numeric (getitem df c) = Return converted
    /\ isna_all converted = false.
Proof.
  unfold numeric_column.
  destruct (pd_to_numeric to_numeric (getitem df c)) as [converted|e] eqn:Hc;
    [|discriminate].
  intros H. exists converted. split; [reflexivity|].
  destruct (isna_all converted) eqn:Hall; [|reflexivity].
  apply isna_all_sum in Hall.
  rewrite <- not_na_ratio_valid_fraction in H.
  destruct (length converted) as [|n] eqn:Hlen.
  - unfold not_na_ratio in H. rewrite Hlen in H. discriminate H.
  - apply valid_fraction_threshold in H; lia.
Qed.

(** X15. The converse of the column requirements: on a non-empty result,
    with the figure opened, a request for one of the five chart types whose
    column mix is not below the minimum always reaches the rendering, so
    [generate_chart] returns the image when the rendering succeeds and the
    text of its exception otherwise; the error of the pie branch about a
    measure that is not numeric is never returned. *)
Theorem generate_chart_renders_supported_mix
        (query chart_type title : string) (df : DataFrame Cell)
        (numeric_cols cat_cols : list string) :
  db_execute query = Return df ->
  df_empty df = false ->
  classify_columns to_numeric df = Return (numeric_cols, cat_cols) ->
  returns plt_figure ->
  known_chart_type chart_type = true ->
  below_minimum chart_type (length cat_cols) (length numeric_cols) = false ->
  exists plot,
    chart_dispatch to_numeric df numeric_cols cat_cols chart_type title
    = Return (inr plot)
    /\ generate_chart to_numeric db_execute plt_figure draw
                      query chart_type title
       = match draw df plot with
         | Return img_base64 => Return (image_outcome img_base64 chart_type)
         | Raise e => Return (error_outcome (exn_str e))
         end.
Proof.
  intros Hdb Hempty Hcls [u Hfig] Hknown Hmin.
  assert (Hdisp : exists plot,
             chart_dispatch to_numeric df numeric_cols cat_cols
                            chart_type title = Return (inr plot)).
  { unfold known_chart_type, PyStr.any in Hknown. simpl in Hknown.
    unfold below_minimum in Hmin. unfold chart_dispatch.
    destruct (String.eqb_spec chart_type "pie") as [->|Hpie].
    - rewrite Hmin.
      apply orb_false_elim in Hmin as [_ Hnum].
      apply Nat.ltb_ge in Hnum.
      rewrite classify_columns_filter in Hcls. injection Hcls as Hn Hc.
      assert (Hin : In (item numeric_cols 0) numeric_cols)
        by (apply item_head_In; destruct numeric_cols; simpl in *;
            [lia | discriminate]).
      rewrite <- Hn in Hin at 2. apply List.filter_In in Hin as [_ Hin].
      destruct (numeric_column_not_all_na _ _ Hin) as [converted [Hc' Hall]].
      rewrite Hc'. cbn [bind]. rewrite Hall. now eexists.
    - destruct (String.eqb_spec chart_type "scatter") as [->|Hsc].
      { simpl. simpl in Hmin. rewrite Hmin. now eexists. }
      destruct (String.eqb_spec chart_type "heatmap") as [->|Hh].
      { simpl. simpl in Hmin. rewrite Hmin. now eexists. }
      destruct (String.eqb chart_type "bar" || String.eqb chart_type "line")
        eqn:Hbl.
      + apply negb_false_iff in Hmin.
        destruct ((length cat_cols =? 0)%nat
                  && (1 <=? length numeric_cols)%nat); [now eexists|].
        destruct ((length cat_cols =? 1)%nat
                  && (1 <=? length numeric_cols)%nat); [now eexists|].
        destruct ((2 <=? length cat_cols)%nat
                  && (1 <=? length numeric_cols)%nat); [now eexists|].
        discriminate Hmin.
      + apply orb_false_elim in Hbl as [Hb Hl]. rewrite Hb, Hl in Hknown.
        destruct (String.eqb_spec chart_type "pie"); [congruence|].
        destruct (String.eqb_spec chart_type "scatter"); [congruence|].
        destruct (String.eqb_spec chart_type "heatmap"); [congruence|].
        discriminate Hknown. }
  destruct Hdisp as [plot Hplot]. exists plot. split; [exact Hplot|].
  unfold generate_chart, generate_chart_try.
  rewrite Hdb. simpl. rewrite Hempty, Hcls. simpl. rewrite Hfig. simpl.
  rewrite Hplot. simpl. destruct (draw df plot); reflexivity.
Qed.

End ChartCompleteness.

Lemma generate_chart_renders_supported_mix_witness :
  generate_chart Demo.to_numeric Examples.db_category_and_measure
                 Demo.plt_figure Demo.draw
                 "SELECT category, value FROM t" "pie" EmptyString
  = Return (image_outcome "iVBORw0KGgo=" "pie").
Proof.
  assert (Hcls : classify_columns Demo.to_numeric
                                  Examples.category_and_measure
                 = Return (["value"], ["category"]))
    by (vm_compute; reflexivity).
  destruct (generate_chart_renders_supported_mix
              string Demo.to_numeric Examples.db_category_and_measure
              Demo.plt_figure Demo.draw
              "SELECT category, value FROM t" "pie" EmptyString
              Examples.category_and_measure ["value"] ["category"]
              eq_refl eq_refl Hcls (ex_intro _ tt eq_refl) eq_refl eq_refl)
    as [plot [_ Hgen]].
  rewrite Hgen. reflexivity.
Defined.

(** * The generic heatmap tool and the schema tools *)

Lemma heatmap_outcome_is_image (img_base64 aggfunc : string) :
  is_image_outcome (heatmap_outcome img_base64 aggfunc).
Proof.
  unfold is_image_outcome, heatmap_outcome. split.
  - rewrite lookup_insert_eq. now eexists.
  - rewrite lookup_insert_ne by discriminate.
    now rewrite lookup_singleton_ne.
Qed.

Section GenericHeatmapProperties.

Variable Cell : Type.
Variable to_numeric : Series Cell -> PyResult (list (option Q)).
Variable db_execute : string -> PyResult (DataFrame Cell).
Variable draw_heatmap :
  DataFrame Cell -> Pivot -> string -> string -> PyResult string.

Lemma generic_heatmap_through_pivot
      (query : string) (row column value : option string)
      (aggfunc title : string) (df : DataFrame Cell) (pivot : Pivot) :
  db_execute query = Return df ->
  df_empty df = false ->
  infer_pivot to_numeric df row column value = Return (inr pivot) ->
  generate_generic_heatmap to_numeric db_execute draw_heatmap
                           query row column value aggfunc title
  = match draw_heatmap df pivot aggfunc title with
    | Return img_base64 => Return (heatmap_outcome img_base64 aggfunc)
    | Raise e => Return (error_outcome (exn_str e))
    end.
Proof.
  intros Hdb Hempty Hpivot.
  unfold generate_generic_heatmap, generate_generic_heatmap_try.
  rewrite Hdb. simpl. rewrite Hempty, Hpivot. simpl.
  destruct (draw_heatmap df pivot aggfunc title); reflexivity.
Qed.

(** X16. [generate_generic_heatmap] on a non-empty result: when [row],
    [column] and [value] are all given, these are the pivot and the
    classifier is not asked; when one is missing ([None] or empty) and the
    result has fewer than two categorical or no numeric column, the tool
    returns the inference error, also when what is missing could have been
    inferred; otherwise each missing parameter is taken by position from
    the classified columns and each given one is kept. *)
Theorem generic_heatmap_parameters
        (query : string) (row column value : option string)
        (aggfunc title : string) (df : DataFrame Cell)
        (numeric_cols cat_cols : list string) :
  db_execute query = Return df ->
  df_empty df = false ->
  classify_columns to_numeric df = Return (numeric_cols, cat_cols) ->
  let outcome := generate_generic_heatmap to_numeric db_execute draw_heatmap
                                          query row column value
                                          aggfunc title in
  let rendered pivot :=
    match draw_heatmap df pivot aggfunc title with
    | Return img_base64 => Return (heatmap_outcome img_base64 aggfunc)
    | Raise e => Return (error_outcome (exn_str e))
    end in
  (forall r c v,
      row = Some r -> column = Some c -> value = Some v ->
      PyStr.truthy r = true -> PyStr.truthy c = true ->
      PyStr.truthy v = true ->
      outcome = rendered (MkPivot r c v))
  /\ (not_given row || not_given column || not_given value = true ->
      (length cat_cols < 2 \/ length numeric_cols < 1)%nat ->
      outcome = Return (error_outcome heatmap_inference_error))
  /\ (not_given row || not_given column || not_given value = true ->
      (2 <= length cat_cols)%nat -> (1 <= length numeric_cols)%nat ->
      exists pivot,
        outcome = rendered pivot
        /\ pivot_row pivot = (if not_given row then item cat_cols 0
                              else default EmptyString row)
        /\ pivot_column pivot = (if not_given column then item cat_cols 1
                                 else default EmptyString column)
        /\ pivot_value pivot = (if not_given value then item numeric_cols 0
                                else default EmptyString value)).
Proof.
  intros Hdb Hempty Hcls. cbv zeta. split; [|split].
  - intros r c v -> -> -> Hr Hc Hv.
    apply generic_heatmap_through_pivot with (df := df);
      [assumption | assumption |].
    unfold infer_pivot, not_given. now rewrite Hr, Hc, Hv.
  - intros Hmissing Hfew.
    unfold generate_generic_heatmap, generate_generic_heatmap_try.
    rewrite Hdb. simpl. rewrite Hempty.
    unfold infer_pivot. rewrite Hmissing, Hcls. cbn [bind fst snd].
    assert (H : (2 <=? length cat_cols)%nat
                && (1 <=? length numeric_cols)%nat = false).
    { apply andb_false_iff.
      destruct Hfew; [left | right]; apply Nat.leb_gt; lia. }
    now rewrite H.
  - intros Hmissing Hcat Hnum. eexists. split.
    + apply generic_heatmap_through_pivot with (df := df);
        [assumption | assumption |].
      unfold infer_pivot. rewrite Hmissing, Hcls. cbn [bind fst snd].
      apply Nat.leb_le in Hcat, Hnum. rewrite Hcat, Hnum. reflexivity.
    + now repeat split.
Qed.

(** X17. [generate_generic_heatmap] never raises: it returns a dictionary
    holding an image or an error; the error is [Nenhum dado encontrado pela
    consulta.] for an empty result and the text of the exception when the
    query or the rendering raises. *)
Theorem generic_heatmap_never_raises
        (query : string) (row column value : option string)
        (aggfunc title : string) :
  (exists d,
      generate_generic_heatmap to_numeric db_execute draw_heatmap
                               query row column value aggfunc title
      = Return d
      /\ (is_image_outcome d \/ is_error_outcome d))
  /\ (forall df,
         db_execute query = Return df -> df_empty df = true ->
         generate_generic_heatmap to_numeric db_execute draw_heatmap
                                  query row column value aggfunc title
         = Return (error_outcome no_data_error))
  /\ (forall e,
         db_execute query = Raise e ->
         generate_generic_heatmap to_numeric db_execute draw_heatmap
                                  query row column value aggfunc title
         = Return (error_outcome (exn_str e)))
  /\ (forall df pivot e,
         db_execute query = Return df -> df_empty df = false ->
         infer_pivot to_numeric df row column value = Return (inr pivot) ->
         draw_heatmap df pivot aggfunc title = Raise e ->
         generate_generic_heatmap to_numeric db_execute draw_heatmap
                                  query row column value aggfunc title
         = Return (error_outcome (exn_str e))).
Proof.
  split; [|split; [|split]].
  - unfold generate_generic_heatmap, generate_generic_heatmap_try.
    destruct (db_execute query) as [df|e]; simpl.
    2:{ eexists. split; [reflexivity|]. right. apply error_outcome_is_error. }
    destruct (df_empty df).
    { eexists. split; [reflexivity|]. right. apply error_outcome_is_error. }
    unfold infer_pivot.
    rewrite classify_columns_filter.
    destruct (not_given row || not_given column || not_given value); simpl.
    + destruct (_ && _); simpl.
      * destruct (draw_heatmap _ _ _ _); simpl; eexists;
          (split; [reflexivity|]);
          [left; apply heatmap_outcome_is_image
          | right; apply error_outcome_is_error].
      * eexists. split; [reflexivity|]. right. apply error_outcome_is_error.
    + destruct (draw_heatmap _ _ _ _); simpl; eexists;
        (split; [reflexivity|]);
        [left; apply heatmap_outcome_is_image
        | right; apply error_outcome_is_error].
  - intros df Hdb Hempty.
    unfold generate_generic_heatmap, generate_generic_heatmap_try.
    rewrite Hdb. simpl. now rewrite Hempty.
  - intros e Hdb.
    unfold generate_generic_heatmap, generate_generic_heatmap_try.
    now rewrite Hdb.
  - intros df pivot e Hdb Hempty Hpivot Hdraw.
    rewrite (generic_heatmap_through_pivot _ _ _ _ _ _ df pivot
               Hdb Hempty Hpivot).
    now rewrite Hdraw.
Qed.

End GenericHeatmapProperties.

Lemma generic_heatmap_parameters_witness :
  generate_generic_heatmap Demo.to_numeric Examples.db_category_and_measure
                           Examples.draw_heatmap
                           "SELECT category, value FROM t"
                           (Some "category") (Some "category") (Some "value")
                           "sum" "Heatmap"
  = Return (heatmap_outcome "iVBORw0KGgo=" "sum")
  /\ generate_generic_heatmap Demo.to_numeric Examples.db_category_and_measure
                              Examples.draw_heatmap
                              "SELECT category, value FROM t"
                              (Some "category") (Some "category") None
                              "sum" "Heatmap"
     = Return (error_outcome heatmap_inference_error).
Proof.
  assert (Hcls : classify_columns Demo.to_numeric
                                  Examples.category_and_measure
                 = Return (["value"], ["category"]))
    by (vm_compute; reflexivity).
  split.
  - destruct (generic_heatmap_parameters
                string Demo.to_numeric Examples.db_category_and_measure
                Examples.draw_heatmap "SELECT category, value FROM t"
                (Some "category") (Some "category") (Some "value")
                "sum" "Heatmap" Examples.category_and_measure
                ["value"] ["category"] eq_refl eq_refl Hcls) as [Hgiven _].
    now rewrite (Hgiven "category" "category" "value").
  - destruct (generic_heatmap_parameters
                string Demo.to_numeric Examples.db_category_and_measure
                Examples.draw_heatmap "SELECT category, value FROM t"
                (Some "category") (Some "category") None
                "sum" "Heatmap" Examples.category_and_measure
                ["value"] ["category"] eq_refl eq_refl Hcls)
      as [_ [Hfew _]].
    apply Hfew; [reflexivity | simpl; lia].
Defined.

Lemma generic_heatmap_never_raises_witness :
  generate_generic_heatmap Demo.to_numeric Demo.db_no_rows
                           Examples.draw_heatmap
                           "SELECT x FROM t WHERE 1 = 0" None None None
                           "sum" "Heatmap"
  = Return (error_outcome no_data_error).
Proof.
  destruct (generic_heatmap_never_raises
              string Demo.to_numeric Demo.db_no_rows Examples.draw_heatmap
              "SELECT x FROM t WHERE 1 = 0" None None None "sum" "Heatmap")
    as [_ [Hempty _]].
  apply (Hempty (MkDataFrame ["x"] [])); reflexivity.
Defined.

Lemma startswith_app_l (n s t : string) :
  PyStr.startswith n s = true -> PyStr.startswith n (s ++ t) = true.
Proof.
  revert s. induction n as [|a n IH]; intros s H; [reflexivity|].
  destruct s as [|b s]; [discriminate|]. simpl in *.
  destruct (Ascii.eqb a b); [now apply IH | discriminate].
Qed.

Lemma contains_app_l (n s t : string) :
  PyStr.contains n s = true -> PyStr.contains n (s ++ t) = true.
Proof.
  induction s as [|b s IH]; intros H.
  - simpl in H. rewrite orb_false_r in H.
    destruct n; [|discriminate]. destruct t; reflexivity.
  - simpl in *. apply orb_true_iff in H as [H | H].
    + change (String b (s ++ t)) with (String b s ++ t).
      rewrite (startswith_app_l n (String b s) t H). reflexivity.
    + rewrite (IH H). apply orb_true_r.
Qed.

Lemma try_except_returns {A : Type} (body : PyResult A)
      (handler : Exn -> PyResult A) :
  (forall e, returns (handler e)) -> returns (try_except body handler).
Proof.
  intros H. destruct body as [a|e]; simpl; [now exists a | apply H].
Qed.

(** X18. The schema tools never raise and hand the data source exactly one
    statement: [SHOW TABLES;] for [show_tables], and for
    [get_table_columns] the table name spliced as it is into
    [SHOW COLUMNS FROM ...;]. No keyword filter is applied to the name:
    for a name that contains one of the forbidden keywords,
    [consult_database] rejects the very statement that
    [get_table_columns] executes. *)
Theorem schema_tools_statements
        (db_execute : string -> PyResult FieldsResult)
        (db_fetchall : string -> PyResult (list (list string)))
        (db_query : string -> PyResult QueryResult)
        (table_name : string) :
  executed (show_tables db_execute) = ["SHOW TABLES;"]
  /\ returns (outcome (show_tables db_execute))
  /\ executed (get_table_columns db_fetchall table_name)
     = ["SHOW COLUMNS FROM " ++ table_name ++ ";"]
  /\ returns (outcome (get_table_columns db_fetchall table_name))
  /\ (forall cmd,
         In cmd forbidden ->
         PyStr.contains cmd (upper_ascii table_name) = true ->
         consult_database upper_ascii db_query
                          ("SHOW COLUMNS FROM " ++ table_name ++ ";")
         = MkDbCall [] (Return read_only_rejection)).
Proof.
  split; [reflexivity|]. split.
  { apply try_except_returns. intros e. now eexists. }
  split; [reflexivity|]. split.
  { apply try_except_returns. intros e. now eexists. }
  intros cmd Hin Hc. unfold consult_database, PyStr.any.
  assert (H : existsb
                (fun cmd =>
                   PyStr.contains
                     cmd (upper_ascii
                            ("SHOW COLUMNS FROM " ++ table_name ++ ";")))
                forbidden = true).
  { apply existsb_exists. exists cmd. split; [assumption|].
    rewrite upper_ascii_app. apply contains_app_r.
    rewrite upper_ascii_app. now apply contains_app_l. }
  now rewrite H.
Qed.

Lemma schema_tools_statements_witness :
  executed (get_table_columns Examples.db_fetchall_fails
                              "chats; DROP TABLE chats")
  = ["SHOW COLUMNS FROM chats; DROP TABLE chats;"]
  /\ consult_database upper_ascii Demo.db_rows
                      "SHOW COLUMNS FROM chats; DROP TABLE chats;"
     = MkDbCall [] (Return read_only_rejection).
Proof.
  destruct (schema_tools_statements
              Examples.db_fields Examples.db_fetchall_fails Demo.db_rows
              "chats; DROP TABLE chats") as [_ [_ [Hexec [_ Hreject]]]].
  split; [exact Hexec|].
  apply (Hreject "DROP"); [simpl; tauto | vm_compute; reflexivity].
Defined.

(** * Uploaded files *)

Lemma after_last_dot_none (s : string) :
  PyStr.contains "." s = false -> after_last_dot s = None.
Proof.
  induction s as [|c s IH]; intros H; [reflexivity|].
  cbn [PyStr.contains PyStr.startswith] in H.
  destruct (Ascii.eqb "." c) eqn:E; [discriminate H|].
  cbn [orb] in H. cbn [after_last_dot].
  now rewrite (IH H), Ascii.eqb_sym, E.
Qed.

Lemma after_last_dot_app (stem ext : string) :
  PyStr.contains "." ext = false ->
  after_last_dot (stem ++ "." ++ ext) = Some ext.
Proof.
  intros Hext. induction stem as [|c stem IH].
  - change (after_last_dot (String "."%char ext) = Some ext).
    cbn [after_last_dot].
    now rewrite (after_last_dot_none ext Hext), Ascii.eqb_refl.
  - change (after_last_dot (String c (stem ++ "." ++ ext)) = Some ext).
    cbn [after_last_dot]. now rewrite IH.
Qed.

Section UploadProperties.

Variable lower : string -> string.
Variable extract_text_from_excel : string -> Extraction.
Variable extract_text_from_txt : string -> Extraction.
Variable extract_text_from_powerpoint : string -> Extraction.
Variable extract_text_from_doc : string -> Extraction.

Let extract := extract_text_from_file lower extract_text_from_excel
                                      extract_text_from_txt
                                      extract_text_from_powerpoint
                                      extract_text_from_doc.

Let upload := uploaded_file_text lower extract_text_from_excel
                                 extract_text_from_txt
                                 extract_text_from_powerpoint
                                 extract_text_from_doc.

(** X19. The extension of an uploaded file is what follows the last dot of
    its name, and the whole name when the name has no dot: a file called
    [stem.ext] is read as [ext], a file whose name has no dot is read as if
    its name were its extension. *)
Theorem upload_extension (file_bytes : string) :
  (forall stem ext,
      PyStr.contains "." ext = false ->
      upload (stem ++ "." ++ ext) file_bytes
      = extract file_bytes (lower ext))
  /\ (forall name,
         PyStr.contains "." name = false ->
         upload name file_bytes = extract file_bytes (lower name)).
Proof.
  unfold upload, uploaded_file_text, rsplit_last. split.
  - intros stem ext Hext. now rewrite after_last_dot_app.
  - intros name Hname. now rewrite after_last_dot_none.
Qed.

(** X20. [extract_text_from_file] accepts exactly the eight extensions of
    [ALLOWED_EXTENSIONS], compared after lower-casing: any other extension
    gives the [ValueError] that names it, without a reader being called;
    an accepted one is always handled by a reader, so the last [else] of
    the function is never taken, and [pdf] gives the fixed notice whatever
    the file holds. *)
Theorem extract_text_dispatch (file_bytes extension : string) :
  (str_in (lower extension) ALLOWED_EXTENSIONS = false ->
   extract file_bytes extension
   = ValueError ("Unsupported file extension: " ++ lower extension
                 ++ ". Only text-based files are allowed."))
  /\ (str_in (lower extension) ALLOWED_EXTENSIONS = true ->
      (lower extension = "pdf"
       /\ extract file_bytes extension = Extracted pdf_notice)
      \/ ((lower extension = "xls" \/ lower extension = "xlsx")
          /\ extract file_bytes extension
             = extract_text_from_excel file_bytes)
      \/ (lower extension = "txt"
          /\ extract file_bytes extension = extract_text_from_txt file_bytes)
      \/ ((lower extension = "ppt" \/ lower extension = "pptx")
          /\ extract file_bytes extension
             = extract_text_from_powerpoint file_bytes)
      \/ ((lower extension = "doc" \/ lower extension = "docx")
          /\ extract file_bytes extension
             = extract_text_from_doc file_bytes)).
Proof.
  unfold extract, extract_text_from_file. cbv zeta. split.
  - intros H. now rewrite H.
  - intros H. rewrite H. cbn [negb].
    unfold str_in, ALLOWED_EXTENSIONS in H. cbn [existsb] in H.
    repeat (apply orb_true_iff in H as [H | H]);
      try discriminate H;
      apply String.eqb_eq in H; rewrite H; cbn; tauto.
Qed.

End UploadProperties.

Lemma upload_extension_witness :
  uploaded_file_text Examples.lower_ascii
                     (Examples.reader "excel:") (Examples.reader "txt:")
                     (Examples.reader "pptx:") (Examples.reader "docx:")
                     "relatorio.final.XLSX" "PK"
  = Extracted "excel:PK"
  /\ uploaded_file_text Examples.lower_ascii
                        (Examples.reader "excel:") (Examples.reader "txt:")
                        (Examples.reader "pptx:") (Examples.reader "docx:")
                        "TXT" "ola"
     = Extracted "txt:ola".
Proof.
  destruct (upload_extension
              Examples.lower_ascii
              (Examples.reader "excel:") (Examples.reader "txt:")
              (Examples.reader "pptx:") (Examples.reader "docx:") "PK")
    as [Hdot _].
  destruct (upload_extension
              Examples.lower_ascii
              (Examples.reader "excel:") (Examples.reader "txt:")
              (Examples.reader "pptx:") (Examples.reader "docx:") "ola")
    as [_ Hnodot].
  split.
  - change "relatorio.final.XLSX" with ("relatorio.final" ++ "." ++ "XLSX").
    rewrite Hdot; reflexivity.
  - rewrite Hnodot; reflexivity.
Defined.

Lemma extract_text_dispatch_witness :
  extract_text_from_file Examples.lower_ascii
                         (Examples.reader "excel:") (Examples.reader "txt:")
                         (Examples.reader "pptx:") (Examples.reader "docx:")
                         "MZ" "EXE"
  = ValueError
      "Unsupported file extension: exe. Only text-based files are allowed.".
Proof.
  destruct (extract_text_dispatch
              Examples.lower_ascii
              (Examples.reader "excel:") (Examples.reader "txt:")
              (Examples.reader "pptx:") (Examples.reader "docx:")
              "MZ" "EXE") as [Hbad _].
  rewrite Hbad; reflexivity.
Defined.
